(** * Market research notebook: correlation analysis

    A shallow embedding of [notebooks/market_research.ipynb] (one code cell):
    the instrument universe, the routine [analyze_market_correlations] and the
    top-level driver that flattens the universe and analyses its first ten
    tickers.

    Layout:
    - [Pandas]: the table operations the routine calls ([pd.DataFrame],
      [pct_change], [corr]);
    - [Py]: the part of the Python run-time the cell relies on: an object store
      with references, the kernel's global namespace, exceptions, standard
      output;
    - [Notebook]: the cell itself, statement by statement;
    - the theorems. *)

From Stdlib Require Import Reals Lra Psatz ZArith List String.
From stdpp Require Import base list.

(* ===================================================================== *)
(** ** Table operations *)
(* ===================================================================== *)

Module Pandas.

(** Modelled from the spec: the tables and the three pandas calls of the
    routine, [pd.DataFrame(data)], [pct_change()] and [corr()]. pandas is a
    third-party library; its code is not part of the repository. The model
    follows the spec's data model (price series, joint price table, returns,
    correlation matrix) and the library's documented behaviour on missing
    values. *)

(** A table cell. Python floats are idealised by exact real numbers; [None]
    stands for every value that the correlation step treats as missing (NaN
    and the two infinities). *)
Definition Cell : Type := option R.

(** A time-indexed sequence: observation date (as a day number) and value. *)
Definition Series : Type := list (Z * Cell).

(** A labelled table, stored by column: every column holds one cell per entry
    of [index], in the order of [index]. *)
Record DataFrame (I : Type) : Type := mkDataFrame {
  index : list I;
  columns : list (string * list Cell)
}.
Arguments mkDataFrame {I} _ _.
Arguments index {I} _.
Arguments columns {I} _.

Definition column_names {I} (df : DataFrame I) : list string :=
  map fst (columns df).

(** [s.get(d)]: the value observed at date [d], missing when there is none. *)
Fixpoint series_at (s : Series) (d : Z) : Cell :=
  match s with
  | [] => None
  | (d', v) :: rest => if (d =? d')%Z then v else series_at rest d
  end.

(** Insertion into an ascending list of dates that holds no date twice. *)
Fixpoint insert_date (d : Z) (l : list Z) : list Z :=
  match l with
  | [] => [d]
  | x :: rest =>
      if (d <? x)%Z then d :: l
      else if (d =? x)%Z then l
      else x :: insert_date d rest
  end.

(** The union of the date indexes of the series, ascending. *)
Definition union_index (ss : list Series) : list Z :=
  fold_right insert_date [] (concat (map (map fst) ss)).

(** Modelled from the spec: [pd.DataFrame(data)] for a dict of series ("Joint
    price table: ticker -> aligned price series, combined by date index;
    missing values arise naturally"). pandas is a third-party library and is
    not part of the repository. Columns keep the dict's insertion order. *)
Definition DataFrame_of_dict (data : list (string * Series)) : DataFrame Z :=
  let idx := union_index (map snd data) in
  mkDataFrame idx (map (fun kv => (fst kv, map (series_at (snd kv)) idx)) data).

(** How [pct_change] treats missing cells before it divides: pandas up to 2.x
    carries the last valid observation forward, pandas 3 leaves them. *)
Inductive FillMethod : Type := Pad | NoFill.

Fixpoint ffill (last : Cell) (xs : list Cell) : list Cell :=
  match xs with
  | [] => []
  | Some v :: rest => Some v :: ffill (Some v) rest
  | None :: rest => last :: ffill last rest
  end.

(** One percentage change: [cur / prev - 1]. A zero denominator gives an
    infinity or NaN in floating point, which [corr] masks: missing here. *)
Definition pct (prev cur : Cell) : Cell :=
  match prev, cur with
  | Some p, Some c => if Req_EM_T p 0 then None else Some (c / p - 1)%R
  | _, _ => None
  end.

Fixpoint pct_pairs (prev : Cell) (xs : list Cell) : list Cell :=
  match xs with
  | [] => []
  | x :: rest => pct prev x :: pct_pairs x rest
  end.

(** Modelled from the spec: [pct_change] on one column ("Return: the
    percentage change in price between consecutive observations"). The first
    row has no predecessor and is missing. *)
Definition pct_change_column (fm : FillMethod) (xs : list Cell) : list Cell :=
  pct_pairs None (match fm with Pad => ffill None xs | NoFill => xs end).

Definition pct_change {I} (fm : FillMethod) (df : DataFrame I) : DataFrame I :=
  mkDataFrame (index df)
    (map (fun c => (fst c, pct_change_column fm (snd c))) (columns df)).

(** The rows on which both columns hold a value (pairwise deletion). *)
Fixpoint complete_pairs (xs ys : list Cell) : list (R * R) :=
  match xs, ys with
  | x :: xs', y :: ys' =>
      match x, y with
      | Some a, Some b => (a, b) :: complete_pairs xs' ys'
      | _, _ => complete_pairs xs' ys'
      end
  | _, _ => []
  end.

Fixpoint Rsum (l : list R) : R :=
  match l with
  | [] => 0%R
  | x :: rest => (x + Rsum rest)%R
  end.

Definition mean (l : list R) : R := (Rsum l / INR (length l))%R.

(** Sum of products of deviations from [mx] and [my]. *)
Definition codeviation (mx my : R) (ps : list (R * R)) : R :=
  Rsum (map (fun p => ((fst p - mx) * (snd p - my))%R) ps).

Definition sq_deviation (m : R) (l : list R) : R :=
  Rsum (map (fun x => ((x - m) * (x - m))%R) l).

(** Modelled from the spec: the entry of [corr] for two columns ("Pearson
    correlation coefficients"), over the rows where both are present:
    covariance over the root of the product of the variances. A zero divisor
    (no variance, or no common row) gives NaN. *)
Definition pearson (xs ys : list Cell) : Cell :=
  let ps := complete_pairs xs ys in
  let ax := map fst ps in
  let ay := map snd ps in
  let divisor := sqrt (sq_deviation (mean ax) ax * sq_deviation (mean ay) ay) in
  if Req_EM_T divisor 0 then None
  else Some (codeviation (mean ax) (mean ay) ps / divisor)%R.

(** Modelled from the spec: [df.corr()] ("a symmetric table of pairwise Pearson
    correlation coefficients between return series"): rows and columns are
    labelled by the columns of [df], in their order. *)
Definition corr {I} (df : DataFrame I) : DataFrame string :=
  mkDataFrame (column_names df)
    (map (fun cj => (fst cj, map (fun ci => pearson (snd ci) (snd cj)) (columns df)))
         (columns df)).

(** Position of the first occurrence of a label. *)
Fixpoint position (a : string) (l : list string) : option nat :=
  match l with
  | [] => None
  | b :: rest => if String.eqb a b then Some O else option_map S (position a rest)
  end.

Fixpoint column_of (a : string) (cols : list (string * list Cell)) : option (list Cell) :=
  match cols with
  | [] => None
  | (b, c) :: rest => if String.eqb a b then Some c else column_of a rest
  end.

(** [m.at[r, c]]: the cell in row [r] and column [c]; the outer [None] is a
    [KeyError]. *)
Definition at_ (m : DataFrame string) (r c : string) : option Cell :=
  match column_of c (columns m), position r (index m) with
  | Some col, Some i => nth_error col i
  | _, _ => None
  end.

(** The value a variance test reads: the sum of squared deviations of the
    present cells of a column from their mean. *)
Definition present (xs : list Cell) : list R := map fst (complete_pairs xs xs).

Definition variation (xs : list Cell) : R :=
  sq_deviation (mean (present xs)) (present xs).


Definition swap (p : R * R) : R * R := (snd p, fst p).

(** The table is well formed: every column has one cell per index entry. *)
Definition well_formed {I} (df : DataFrame I) : Prop :=
  Forall (fun c => length (snd c) = length (index df)) (columns df).

End Pandas.

(* ===================================================================== *)
(** ** The Python run-time the cell relies on *)
(* ===================================================================== *)

Module Py.

Import Pandas.

(** References into the object store. *)
Definition loc : Type := nat.

(** Mutable objects: lists of strings, dicts from strings to references, and
    tables. *)
Inductive PyObj : Type :=
| PyList (items : list string)
| PyDict (entries : list (string * loc))
| PyFrame (m : DataFrame string).

(** What a name of the global namespace is bound to. *)
Inductive PyVal : Type :=
| VModule (name : string)
| VName (qualified : string)
| VFunction (name : string)
| VRef (l : loc).

Inductive PyExn : Type :=
| NameError (name : string)
| TypeError (what : string)
| Exception (kind message : string).

(** Calls into matplotlib and seaborn, in the order they are made. *)
Inductive PlotCmd : Type :=
| Figure (width height : Z)
| Heatmap (m : DataFrame string) (annot : bool) (cmap : string) (center : Z)
| Title (text : string)
| Show.

(** The kernel's state. [globals] is the global namespace, the latest binding
    of a name first; [requests] lists the calls made to the data provider;
    [canvas] the drawing calls. *)
Record World : Type := mkWorld {
  heap : list PyObj;
  globals : list (string * PyVal);
  stdout : list string;
  requests : list (string * string);
  canvas : list PlotCmd
}.

Inductive Outcome (A : Type) : Type :=
| Return (a : A)
| Raise (e : PyExn).
Arguments Return {A} _.
Arguments Raise {A} _.

(** Statements: state passing over [World], with exceptions. *)
Definition M (A : Type) : Type := World -> Outcome A * World.

Definition ret {A} (a : A) : M A := fun w => (Return a, w).
Definition raise {A} (e : PyExn) : M A := fun w => (Raise e, w).
Definition bind {A B} (m : M A) (k : A -> M B) : M B :=
  fun w => match m w with
           | (Return a, w') => k a w'
           | (Raise e, w') => (Raise e, w')
           end.

Declare Scope py_scope.
Delimit Scope py_scope with py.
Notation "x <- m ;; k" := (bind m (fun x => k))
  (at level 100, m at next level, right associativity) : py_scope.
Notation "m ;;; k" := (bind m (fun _ => k))
  (at level 100, right associativity) : py_scope.
Local Open Scope py_scope.

(** [try: body except: handler]. A bare [except] catches every exception; what
    the body did to the world before it raised stays done. *)
Definition try_except {A} (body : M A) (handler : M A) : M A :=
  fun w => match body w with
           | (Return a, w') => (Return a, w')
           | (Raise _, w') => handler w'
           end.

(** [for x in xs: acc = body(x, acc)]. *)
Fixpoint for_each {A S} (xs : list A) (body : A -> S -> M S) (acc : S) : M S :=
  match xs with
  | [] => ret acc
  | x :: rest => acc' <- body x acc ;; for_each rest body acc'
  end.

(** The value a name is bound to, if any. *)
Fixpoint binding (name : string) (ns : list (string * PyVal)) : option PyVal :=
  match ns with
  | [] => None
  | (n, v) :: rest => if String.eqb name n then Some v else binding name rest
  end.

(** Reading a global name; an unbound one raises [NameError]. *)
Definition lookup_global (name : string) : M PyVal :=
  fun w => match binding name (globals w) with
           | Some v => (Return v, w)
           | None => (Raise (NameError name), w)
           end.

Definition bind_global (name : string) (v : PyVal) : M unit :=
  fun w => (Return tt,
            mkWorld (heap w) ((name, v) :: globals w) (stdout w) (requests w) (canvas w)).

Definition print (line : string) : M unit :=
  fun w => (Return tt,
            mkWorld (heap w) (globals w) (stdout w ++ [line]) (requests w) (canvas w)).

Definition plot (c : PlotCmd) : M unit :=
  fun w => (Return tt,
            mkWorld (heap w) (globals w) (stdout w) (requests w) (canvas w ++ [c])).

Definition log_request (ticker period : string) : M unit :=
  fun w => (Return tt,
            mkWorld (heap w) (globals w) (stdout w) (requests w ++ [(ticker, period)]) (canvas w)).

(** A new object; its reference is the next free slot of the store. *)
Definition alloc (o : PyObj) : M loc :=
  fun w => (Return (length (heap w)),
            mkWorld (heap w ++ [o]) (globals w) (stdout w) (requests w) (canvas w)).

Definition as_ref (v : PyVal) : M loc :=
  match v with
  | VRef l => ret l
  | _ => raise (TypeError "not an object reference")
  end.

Definition read_list (l : loc) : M (list string) :=
  fun w => match heap w !! l with
           | Some (PyList items) => (Return items, w)
           | _ => (Raise (TypeError "not a list"), w)
           end.

Definition read_dict (l : loc) : M (list (string * loc)) :=
  fun w => match heap w !! l with
           | Some (PyDict entries) => (Return entries, w)
           | _ => (Raise (TypeError "not a dict"), w)
           end.

Definition store (l : loc) (o : PyObj) : M unit :=
  fun w => (Return tt,
            mkWorld (<[l := o]> (heap w)) (globals w) (stdout w) (requests w) (canvas w)).

(** [dst.extend(src)]: the object behind [dst] is updated in place. *)
Definition list_extend (dst src : loc) : M unit :=
  old <- read_list dst ;;
  more <- read_list src ;;
  store dst (PyList (old ++ more)).

(** [src[:n]]: a new list object. *)
Definition list_slice_to (src : loc) (n : nat) : M loc :=
  items <- read_list src ;;
  alloc (PyList (firstn n items)).

(** [d[k] = v] on a dict kept in insertion order: a present key keeps its
    place and takes the new value, a new key goes last. *)
Fixpoint dict_set {V} (k : string) (v : V) (d : list (string * V)) : list (string * V) :=
  match d with
  | [] => [(k, v)]
  | (k', v') :: rest =>
      if String.eqb k k' then (k, v) :: rest else (k', v') :: dict_set k v rest
  end.

End Py.

(* ===================================================================== *)
(** ** The notebook cell *)
(* ===================================================================== *)

Module Notebook.

Import Pandas Py.
Local Open Scope py_scope.
Local Open Scope string_scope.

(** The literal bound to [research_universe], in source order. *)
Definition research_universe : list (string * list string) :=
  [ ("indices", ["SPY"; "QQQ"; "IWM"; "DIA"]);
    ("sectors", ["XLF"; "XLK"; "XLE"; "XLV"; "XLI"]);
    ("commodities", ["GLD"; "SLV"; "USO"; "UNG"]);
    ("bonds", ["TLT"; "IEF"; "SHY"; "HYG"]);
    ("volatility", ["VIX"; "UVXY"; "SVXY"]) ].

Section Cell.

(** What lies outside the cell. [yf_history t p] is the outcome of
    [yf.Ticker(t).history(period=p)['Close']]: a series of closing prices or
    an exception. [sns_heatmap m] is the exception the drawing call raises on
    [m], if any. [fill_method] is the installed pandas' default for
    [pct_change]. *)
Variable yf_history : string -> string -> Outcome Series.
Variable sns_heatmap : DataFrame string -> option PyExn.
Variable fill_method : FillMethod.

(** The body of the [try]: both statements read the global [yf] first. *)
Definition fetch_close (ticker period : string) : M Series :=
  _ <- lookup_global "yf" ;;
  log_request ticker period ;;;
  (fun w => (yf_history ticker period, w)).

Definition heatmap (m : DataFrame string) : M unit :=
  match sns_heatmap m with
  | Some e => raise e
  | None => plot (Heatmap m true "coolwarm" 0)
  end.

(** [def analyze_market_correlations(tickers, period='3mo')]. The argument is
    a reference to a list object. *)
Definition analyze_market_correlations (tickers : loc) (period : string)
  : M (DataFrame string) :=
  ts <- read_list tickers ;;
  data <- for_each ts
            (fun ticker data =>
               try_except
                 (close <- fetch_close ticker period ;;
                  ret (dict_set ticker close data))
                 (print ("Failed to get data for " ++ ticker) ;;; ret data))
            [] ;;
  _ <- lookup_global "pd" ;;
  let df := DataFrame_of_dict data in
  let correlation_matrix := corr (pct_change fill_method df) in
  _ <- lookup_global "plt" ;;
  plot (Figure 10 8) ;;;
  _ <- lookup_global "sns" ;;
  heatmap correlation_matrix ;;;
  _ <- lookup_global "plt" ;;
  plot (Title "Asset Correlation Matrix") ;;;
  _ <- lookup_global "plt" ;;
  plot Show ;;;
  ret correlation_matrix.

(** The dict literal: one list object per category, then the dict. *)
Definition build_universe : M loc :=
  entries <- for_each research_universe
               (fun kv acc => l <- alloc (PyList (snd kv)) ;; ret (acc ++ [(fst kv, l)])%list)
               [] ;;
  alloc (PyDict entries).

(** The imports and the two definitions. *)
Definition definitions : M unit :=
  bind_global "yf" (VModule "yfinance") ;;;
  bind_global "pd" (VModule "pandas") ;;;
  bind_global "np" (VModule "numpy") ;;;
  bind_global "plt" (VModule "matplotlib.pyplot") ;;;
  bind_global "datetime" (VName "datetime.datetime") ;;;
  bind_global "timedelta" (VName "datetime.timedelta") ;;;
  u <- build_universe ;;
  bind_global "research_universe" (VRef u) ;;;
  bind_global "analyze_market_correlations" (VFunction "analyze_market_correlations").

(** [all_tickers = []] and the flattening loop. *)
Definition flatten_universe : M unit :=
  a <- alloc (PyList []) ;;
  bind_global "all_tickers" (VRef a) ;;;
  ru <- lookup_global "research_universe" ;;
  d <- as_ref ru ;;
  entries <- read_dict d ;;
  for_each (map snd entries)
    (fun category _ =>
       bind_global "category" (VRef category) ;;;
       at_ <- lookup_global "all_tickers" ;;
       dst <- as_ref at_ ;;
       c <- lookup_global "category" ;;
       src <- as_ref c ;;
       list_extend dst src)
    tt.

(** The argument of the call: [all_tickers[:10]]. *)
Definition first_ten : M loc :=
  at_ <- lookup_global "all_tickers" ;;
  src <- as_ref at_ ;;
  list_slice_to src 10.

(** The last two statements of the cell. The period is left to its default,
    ['3mo']. *)
Definition run_analysis : M unit :=
  print "🔍 Analyzing market correlations..." ;;;
  _ <- lookup_global "analyze_market_correlations" ;;
  arg <- first_ten ;;
  m <- analyze_market_correlations arg "3mo" ;;
  r <- alloc (PyFrame m) ;;
  bind_global "correlations" (VRef r).

Definition notebook_cell : M unit :=
  definitions ;;; flatten_universe ;;; run_analysis.

(** A call of the routine on a list literal, as a test would make it. *)
Definition call_on (tickers : list string) (period : string) : M (DataFrame string) :=
  arg <- alloc (PyList tickers) ;;
  analyze_market_correlations arg period.

End Cell.

(** A kernel whose global namespace holds [pre] and nothing else yet. *)
Definition kernel (pre : list (string * PyVal)) : World := mkWorld [] pre [] [] [].

(** What [import seaborn as sns], run before the cell, leaves in the kernel. *)
Definition seaborn : list (string * PyVal) := [("sns", VModule "seaborn")].

End Notebook.

(* ===================================================================== *)
(** ** Closed forms and the reference definition *)
(* ===================================================================== *)

Module Reference.

Import Pandas Py Notebook.
Local Open Scope string_scope.

Section Provider.

Variable yf_history : string -> string -> Outcome Series.
Variable fill_method : FillMethod.

(** What the body of the [try] evaluates to in world [w]: the provider's
    answer, or [NameError] when [yf] is unbound. *)
Definition attempt (w : World) (period ticker : string) : Outcome Series :=
  match binding "yf" (globals w) with
  | Some _ => yf_history ticker period
  | None => Raise (NameError "yf")
  end.

(** The provider calls the loop makes over [ts] in world [w]. *)
Definition requested (w : World) (period : string) (ts : list string)
  : list (string * string) :=
  match binding "yf" (globals w) with
  | Some _ => map (fun t => (t, period)) ts
  | None => []
  end.

Variable fetch : string -> Outcome Series.

Definition succeeded (t : string) : bool :=
  match fetch t with Return _ => true | Raise _ => false end.

(** An entry of the dict holds what the provider gave for its key. *)
Definition fetched (kv : string * Series) : Prop := fetch (fst kv) = Return (snd kv).

(** The dict [data] after the loop has run over [ts], starting from [data]. *)
Fixpoint collect (ts : list string) (data : list (string * Series))
  : list (string * Series) :=
  match ts with
  | [] => data
  | t :: rest =>
      collect rest (match fetch t with
                    | Return s => dict_set t s data
                    | Raise _ => data
                    end)
  end.

(** The lines the loop prints over [ts]. *)
Definition diagnostics (ts : list string) : list string :=
  flat_map (fun t => match fetch t with
                     | Return _ => []
                     | Raise _ => ["Failed to get data for " ++ t]
                     end) ts.

(** The table of closing prices and the table of returns that line 37 and the
    first half of line 38 build. *)
Definition price_table (ts : list string) : DataFrame Z :=
  DataFrame_of_dict (collect ts []).

Definition return_table (ts : list string) : DataFrame Z :=
  pct_change fill_method (price_table ts).

Definition known (t : string) (seen : list string) : bool :=
  existsb (String.eqb t) seen.

(** [ts] without repetitions, every element at its first occurrence. *)
Fixpoint first_occurrences (seen ts : list string) : list string :=
  match ts with
  | [] => []
  | t :: rest =>
      if known t seen then first_occurrences seen rest
      else t :: first_occurrences (t :: seen) rest
  end.

(** The reference definition of the result, after the spec's words: the
    tickers that were fetched, their closing prices aligned by date, the
    day-over-day percentage change [(cur - prev) / prev] of each, and the
    Pearson coefficient of every pair by the sums formula
    [(n Sxy - Sx Sy) / (sqrt (n Sxx - Sx^2) * sqrt (n Syy - Sy^2))]. *)
Definition spec_tickers (ts : list string) : list string :=
  first_occurrences [] (List.filter succeeded ts).

Definition spec_closes (t : string) : Series :=
  match fetch t with Return s => s | Raise _ => [] end.

Definition spec_dates (ts : list string) : list Z :=
  union_index (map spec_closes (spec_tickers ts)).

(** The percentage change from one observation to the next. *)
Definition spec_change (prev cur : Cell) : Cell :=
  match prev, cur with
  | Some p, Some c => if Req_EM_T p 0 then None else Some ((c - p) / p)%R
  | _, _ => None
  end.

(** The changes between consecutive observations of a column of prices, in one
    pass; [prev] is the observation before the first row. Where the library
    pads, a missing price counts as the last observation once more. *)
Fixpoint spec_changes (prev : Cell) (xs : list Cell) : list Cell :=
  match xs with
  | [] => []
  | x :: rest =>
      let cur := match fill_method, x with
                 | Pad, None => prev
                 | _, _ => x
                 end in
      spec_change prev cur :: spec_changes cur rest
  end.

Definition spec_returns (ts : list string) (t : string) : list Cell :=
  spec_changes None (map (series_at (spec_closes t)) (spec_dates ts)).

Definition spec_pearson (xs ys : list Cell) : Cell :=
  let ps := complete_pairs xs ys in
  let n := INR (length ps) in
  let sx := Rsum (map fst ps) in
  let sy := Rsum (map snd ps) in
  let sxy := Rsum (map (fun p => (fst p * snd p)%R) ps) in
  let sxx := Rsum (map (fun p => (fst p * fst p)%R) ps) in
  let syy := Rsum (map (fun p => (snd p * snd p)%R) ps) in
  let den := (sqrt (n * sxx - sx * sx) * sqrt (n * syy - sy * sy))%R in
  if Req_EM_T den 0 then None
  else Some ((n * sxy - sx * sy) / den)%R.

Definition spec_correlation_matrix (ts : list string) : DataFrame string :=
  let labels := spec_tickers ts in
  mkDataFrame labels
    (map (fun c => (c, map (fun r => spec_pearson (spec_returns ts r) (spec_returns ts c))
                           labels))
         labels).

(** What the routine would return if it correlated the prices themselves. *)
Definition raw_price_correlation (ts : list string) : DataFrame string :=
  corr (price_table ts).

End Provider.

Arguments known : simpl never.

(** The mapping a program reads through the global [research_universe]:
    category names with the contents of their list objects. *)
Definition universe_view (w : World) : option (list (string * list string)) :=
  match binding "research_universe" (globals w) with
  | Some (VRef d) =>
      match heap w !! d with
      | Some (PyDict entries) =>
          foldr (fun kv acc =>
                   match heap w !! (snd kv), acc with
                   | Some (PyList items), Some l => Some ((fst kv, items) :: l)
                   | _, _ => None
                   end)
                (Some []) entries
      | _ => None
      end
  | _ => None
  end.

(** The matrix the cell leaves in the global [correlations], if it does. *)
Definition correlations_of (w : World) : option (DataFrame string) :=
  match binding "correlations" (globals w) with
  | Some (VRef r) =>
      match heap w !! r with
      | Some (PyFrame m) => Some m
      | _ => None
      end
  | _ => None
  end.

(** The tickers of one category of the literal. *)
Definition category (name : string) : list string :=
  match List.find (fun kv => String.eqb name (fst kv)) research_universe with
  | Some kv => snd kv
  | None => []
  end.

(** The flattened universe, in category order. *)
Definition flattened : list string := concat (map snd research_universe).

(** The world in which the imports and both definitions have run. *)
Definition loaded (pre : list (string * PyVal)) : World :=
  snd (definitions (kernel pre)).

(** A world for a call of the routine on a list: the cell's definitions have
    run in a kernel that holds [pre], and [tickers] is a new list object; its
    reference is [6], the slot after the five category lists and the dict. *)
Definition ready (pre : list (string * PyVal)) (tickers : list string) : World :=
  snd (alloc (PyList tickers) (loaded pre)).

(** The cell up to the call of the routine, and the world in which the call
    is made. *)
Definition before_call : M loc :=
  (definitions ;;;
   flatten_universe ;;;
   print "🔍 Analyzing market correlations..." ;;;
   _ <- lookup_global "analyze_market_correlations" ;;
   first_ten)%py.

Definition called_in (pre : list (string * PyVal)) : World :=
  snd (before_call (kernel pre)).

(** The tickers the slice keeps and the tickers it drops. *)
Definition passed : list string := firstn 10 flattened.
Definition dropped : list string := skipn 10 flattened.

End Reference.

(* ===================================================================== *)
(** ** Fixed price histories *)
(* ===================================================================== *)

Module Mock.

Import Pandas Py.
Local Open Scope string_scope.

(** Closing prices on consecutive days, from day [d] on. *)
Fixpoint series_from (d : Z) (prices : list Z) : Series :=
  match prices with
  | [] => []
  | p :: rest => (d, Some (IZR p)) :: series_from (d + 1) rest
  end.

Fixpoint quotes (t : string) (book : list (string * list Z)) : option (list Z) :=
  match book with
  | [] => None
  | (k, ps) :: rest => if String.eqb t k then Some ps else quotes t rest
  end.

(** A provider that answers from a fixed book of prices and fails for every
    ticker the book does not list. *)
Definition history (book : list (string * list Z)) (t period : string) : Outcome Series :=
  match quotes t book with
  | Some ps => Return (series_from 0 ps)
  | None => Raise (Exception "HTTPError" "no data")
  end.

(** Drawing never fails. *)
Definition draws (m : DataFrame string) : option PyExn := None.

(** A drawing call that rejects a matrix without columns, as the heatmap of
    seaborn does (it takes the minimum of the cells), and accepts any other. *)
Definition rejects_empty (m : DataFrame string) : option PyExn :=
  match columns m with
  | [] => Some (Exception "ValueError" "zero-size array")
  | _ :: _ => None
  end.


Definition twin_book : list (string * list Z) :=
  [("AAA", [1; 2; 3]%Z); ("BBB", [2; 4; 6]%Z)].


Definition doubling_book : list (string * list Z) :=
  [("AAA", [1; 2; 4]%Z)].

(** The table of returns and the correlation table the routine computes from
    a book, called on [tickers] with the default period in a kernel that has
    seaborn. *)
Definition returns_of (book : list (string * list Z)) (tickers : list string) : DataFrame Z :=
  Reference.return_table Pad
    (Reference.attempt (history book) (Reference.ready Notebook.seaborn tickers) "3mo")
    tickers.

Definition matrix_of (book : list (string * list Z)) (tickers : list string)
  : DataFrame string :=
  corr (returns_of book tickers).

End Mock.

(** Evaluation of a table on given prices: everything but the arithmetic of
    the reals is computed. *)
Ltac evaluate :=
  cbv -[Req_EM_T Rdiv Rminus Rplus Rmult Ropp Rinv IZR INR sqrt Rle Rlt];
  rewrite ?INR_IZR_INZ;
  cbv -[Req_EM_T Rdiv Rminus Rplus Rmult Ropp Rinv IZR INR sqrt Rle Rlt].

(** The tests for a zero denominator, on nonzero prices. *)
Ltac zero_tests :=
  repeat match goal with
         | |- context [Req_EM_T ?x ?y] =>
             destruct (Req_EM_T x y) as [?H|?H]; [exfalso; lra|]
         end.

(* ===================================================================== *)
(** ** The routine, statement by statement *)
(* ===================================================================== *)

Import Pandas Py Notebook Reference.
Local Open Scope string_scope.
Local Open Scope list_scope.

Section Routine.

Variable yf_history : string -> string -> Outcome Series.
Variable sns_heatmap : DataFrame string -> option PyExn.
Variable fill_method : FillMethod.

Abbreviation analyze := (analyze_market_correlations yf_history sns_heatmap fill_method).

(** One pass through the [try] statement never raises. *)
Lemma try_fetch (period ticker : string) (data : list (string * Series)) (w : World) :
  try_except
    (bind (fetch_close yf_history ticker period)
          (fun close => ret (dict_set ticker close data)))
    (bind (print ("Failed to get data for " ++ ticker)%string) (fun _ => ret data)) w
  = (Return (collect (attempt yf_history w period) [ticker] data),
     mkWorld (heap w) (globals w)
             (stdout w ++ diagnostics (attempt yf_history w period) [ticker])
             (requests w ++ requested w period [ticker])
             (canvas w)).
Proof.
  destruct w as [h g o r c].
  unfold try_except, fetch_close, bind, lookup_global, log_request, print, ret,
    attempt, requested, diagnostics; cbn.
  destruct (binding "yf" g) as [v|]; cbn.
  - destruct (yf_history ticker period) as [s|e]; cbn; rewrite ?app_nil_r; reflexivity.
  - rewrite !app_nil_r. reflexivity.
Qed.

(** The loop never raises: it returns the collected dict, prints one line per
    failed ticker and leaves the store and the namespace alone. *)
Lemma fetch_loop (period : string) (ts : list string) :
  forall (data : list (string * Series)) (w : World),
    for_each ts
      (fun ticker data =>
         try_except
           (bind (fetch_close yf_history ticker period)
                 (fun close => ret (dict_set ticker close data)))
           (bind (print ("Failed to get data for " ++ ticker)%string) (fun _ => ret data)))
      data w
    = (Return (collect (attempt yf_history w period) ts data),
       mkWorld (heap w) (globals w)
               (stdout w ++ diagnostics (attempt yf_history w period) ts)
               (requests w ++ requested w period ts)
               (canvas w)).
Proof.
  induction ts as [|t rest IH]; intros data w.
  - destruct w as [h g o r c]. unfold requested, diagnostics; cbn.
    destruct (binding "yf" g); rewrite !app_nil_r; reflexivity.
  - cbn [for_each]. unfold bind at 1. cbv beta. rewrite try_fetch, IH.
    destruct w as [h g o r c]. unfold attempt, requested, diagnostics; cbn.
    destruct (binding "yf" g) as [v|]; cbn.
    + rewrite <- !app_assoc. reflexivity.
    + rewrite <- !app_assoc. reflexivity.
Qed.

(** The routine unfolded: what it returns or raises, and the world it leaves,
    by the state of the namespace. *)
Lemma analyze_unfold (tickers : loc) (period : string) (w : World) :
  analyze tickers period w =
  match heap w !! tickers with
  | Some (PyList ts) =>
      let fetch := attempt yf_history w period in
      let m := corr (return_table fill_method fetch ts) in
      let out := stdout w ++ diagnostics fetch ts in
      let req := requests w ++ requested w period ts in
      match binding "pd" (globals w) with
      | None => (Raise (NameError "pd"), mkWorld (heap w) (globals w) out req (canvas w))
      | Some _ =>
          match binding "plt" (globals w) with
          | None => (Raise (NameError "plt"), mkWorld (heap w) (globals w) out req (canvas w))
          | Some _ =>
              match binding "sns" (globals w) with
              | None => (Raise (NameError "sns"),
                         mkWorld (heap w) (globals w) out req (canvas w ++ [Figure 10 8]))
              | Some _ =>
                  match sns_heatmap m with
                  | Some e => (Raise e,
                               mkWorld (heap w) (globals w) out req (canvas w ++ [Figure 10 8]))
                  | None => (Return m,
                             mkWorld (heap w) (globals w) out req
                                     (canvas w ++ [Figure 10 8; Heatmap m true "coolwarm" 0;
                                                   Title "Asset Correlation Matrix"; Show]))
                  end
              end
          end
      end
  | _ => (Raise (TypeError "not a list"), w)
  end.
Proof.
  unfold analyze_market_correlations.
  unfold bind at 1. unfold read_list.
  destruct (heap w !! tickers) as [[ts|d|f]|]; try reflexivity.
  unfold bind at 1. rewrite fetch_loop.
  unfold return_table, price_table, heatmap, bind, lookup_global, plot, ret, raise.
  cbn [globals heap stdout requests canvas].
  destruct (binding "pd" (globals w)); [|reflexivity].
  cbn [globals heap stdout requests canvas].
  destruct (binding "plt" (globals w)) eqn:Hplt; [|reflexivity].
  cbn [globals heap stdout requests canvas].
  destruct (binding "sns" (globals w)); [|reflexivity].
  destruct (sns_heatmap _); cbn [globals heap stdout requests canvas]; [reflexivity|].
  rewrite Hplt. cbn [globals heap stdout requests canvas]. rewrite Hplt.
  cbn [globals heap stdout requests canvas].
  rewrite <- !app_assoc. reflexivity.
Qed.

End Routine.

(* ===================================================================== *)
(** ** Sums, deviations and the Pearson coefficient *)
(* ===================================================================== *)

Section PearsonFacts.

Local Open Scope R_scope.

Lemma sq_deviation_nonneg (m : R) (l : list R) : 0 <= sq_deviation m l.
Proof.
  unfold sq_deviation. induction l as [|x l IH]; cbn; [lra|].
  pose proof (Rle_0_sqr (x - m)) as H. unfold Rsqr in H. lra.
Qed.

Lemma sq_deviation_fst (m : R) (ps : list (R * R)) :
  sq_deviation m (map fst ps) = Rsum (map (fun p => (fst p - m) * (fst p - m)) ps).
Proof. unfold sq_deviation. rewrite map_map. reflexivity. Qed.

Lemma sq_deviation_snd (m : R) (ps : list (R * R)) :
  sq_deviation m (map snd ps) = Rsum (map (fun p => (snd p - m) * (snd p - m)) ps).
Proof. unfold sq_deviation. rewrite map_map. reflexivity. Qed.



Lemma complete_pairs_swap (xs : list Cell) :
  forall ys, complete_pairs ys xs = map swap (complete_pairs xs ys).
Proof.
  induction xs as [|x xs IH]; intros [|y ys]; cbn; try reflexivity.
  destruct x, y; cbn; rewrite IH; reflexivity.
Qed.

(** The coefficient does not depend on the order of the two columns. *)
Lemma pearson_sym (xs ys : list Cell) : pearson xs ys = pearson ys xs.
Proof.
  unfold pearson. rewrite (complete_pairs_swap xs ys).
  set (ps := complete_pairs xs ys).
  assert (Hf : map fst (map swap ps) = map snd ps)
    by (rewrite map_map; reflexivity).
  assert (Hs : map snd (map swap ps) = map fst ps)
    by (rewrite map_map; reflexivity).
  rewrite Hf, Hs.
  assert (Hc : codeviation (mean (map snd ps)) (mean (map fst ps)) (map swap ps)
               = codeviation (mean (map fst ps)) (mean (map snd ps)) ps).
  { unfold codeviation. rewrite map_map. f_equal. apply map_ext.
    intros [a b]; cbn. ring. }
  rewrite Hc.
  rewrite (Rmult_comm (sq_deviation (mean (map snd ps)) (map snd ps))).
  reflexivity.
Qed.

Lemma complete_pairs_diag (xs : list Cell) :
  map snd (complete_pairs xs xs) = map fst (complete_pairs xs xs).
Proof.
  induction xs as [|[a|] xs IH]; cbn; [reflexivity| |exact IH].
  rewrite IH. reflexivity.
Qed.

Lemma codeviation_diag (m : R) (xs : list Cell) :
  codeviation m m (complete_pairs xs xs) = sq_deviation m (present xs).
Proof.
  unfold present. rewrite sq_deviation_fst. unfold codeviation.
  induction xs as [|[a|] xs IH]; cbn; [reflexivity| |exact IH].
  rewrite IH. reflexivity.
Qed.

(** A column with some variation has coefficient 1 with itself. *)
Lemma pearson_diag (xs : list Cell) :
  variation xs <> 0 -> pearson xs xs = Some 1.
Proof.
  intros Hv. unfold pearson. rewrite complete_pairs_diag, codeviation_diag.
  fold (present xs). fold (variation xs).
  pose proof (sq_deviation_nonneg (mean (present xs)) (present xs)) as Hn.
  fold (variation xs) in Hn.
  rewrite (sqrt_square _ Hn).
  destruct (Req_EM_T (variation xs) 0) as [H0|_]; [contradiction|].
  f_equal. field. exact Hv.
Qed.

Lemma pearson_diag_missing (xs : list Cell) :
  variation xs = 0 -> pearson xs xs = None.
Proof.
  intros Hv. unfold pearson. rewrite complete_pairs_diag.
  fold (present xs). fold (variation xs). rewrite Hv, Rmult_0_l, sqrt_0.
  destruct (Req_EM_T 0 0) as [_|H]; [reflexivity|contradiction].
Qed.

(** *** Proportional columns *)







(** *** The sums formula *)

Lemma sq_deviation_sums (m : R) (ps : list (R * R)) :
  sq_deviation m (map fst ps)
  = Rsum (map (fun p => fst p * fst p) ps) - 2 * m * Rsum (map fst ps)
    + INR (length ps) * m * m.
Proof.
  rewrite sq_deviation_fst.
  induction ps as [|[x y] ps IH]; [cbn; ring|].
  cbn [map Rsum fst snd]. rewrite IH. change (length ((x, y) :: ps)) with (S (length ps)).
  rewrite S_INR. ring.
Qed.

Lemma sq_deviation_sums_snd (m : R) (ps : list (R * R)) :
  sq_deviation m (map snd ps)
  = Rsum (map (fun p => snd p * snd p) ps) - 2 * m * Rsum (map snd ps)
    + INR (length ps) * m * m.
Proof.
  rewrite sq_deviation_snd.
  induction ps as [|[x y] ps IH]; [cbn; ring|].
  cbn [map Rsum fst snd]. rewrite IH. change (length ((x, y) :: ps)) with (S (length ps)).
  rewrite S_INR. ring.
Qed.

Lemma codeviation_sums (mx my : R) (ps : list (R * R)) :
  codeviation mx my ps
  = Rsum (map (fun p => fst p * snd p) ps) - my * Rsum (map fst ps)
    - mx * Rsum (map snd ps) + INR (length ps) * mx * my.
Proof.
  unfold codeviation.
  induction ps as [|[x y] ps IH]; [cbn; ring|].
  cbn [map Rsum fst snd]. rewrite IH. change (length ((x, y) :: ps)) with (S (length ps)).
  rewrite S_INR. ring.
Qed.

(** The coefficient by deviations from the means is the coefficient by the
    sums formula. *)
Lemma pearson_spec_pearson (xs ys : list Cell) :
  pearson xs ys = spec_pearson xs ys.
Proof.
  unfold pearson, spec_pearson.
  set (ps := complete_pairs xs ys).
  pose proof (sq_deviation_nonneg (mean (map fst ps)) (map fst ps)) as HA.
  pose proof (sq_deviation_nonneg (mean (map snd ps)) (map snd ps)) as HB.
  pose proof (sq_deviation_sums (mean (map fst ps)) ps) as EA.
  pose proof (sq_deviation_sums_snd (mean (map snd ps)) ps) as EB.
  pose proof (codeviation_sums (mean (map fst ps)) (mean (map snd ps)) ps) as EC.
  unfold mean in *. rewrite !length_map in *.
  set (n := INR (length ps)) in *.
  set (sx := Rsum (map fst ps)) in *.
  set (sy := Rsum (map snd ps)) in *.
  set (sxy := Rsum (map (fun p => fst p * snd p) ps)) in *.
  set (sxx := Rsum (map (fun p => fst p * fst p) ps)) in *.
  set (syy := Rsum (map (fun p => snd p * snd p) ps)) in *.
  set (A := sq_deviation (sx / n) (map fst ps)) in *.
  set (B := sq_deviation (sy / n) (map snd ps)) in *.
  set (C := codeviation (sx / n) (sy / n) ps) in *.
  destruct ps as [|p ps'] eqn:Hps.
  - (* no common row: both divisors vanish *)
    assert (A = 0) by (subst A; reflexivity).
    assert (B = 0) by (subst B; reflexivity).
    assert (n = 0) by (subst n; reflexivity).
    assert (sx = 0) by (subst sx; reflexivity).
    assert (sy = 0) by (subst sy; reflexivity).
    replace (A * B) with 0 by nra.
    replace (n * sxx - sx * sx) with 0 by nra.
    rewrite sqrt_0, Rmult_0_l.
    destruct (Req_EM_T 0 0) as [_|H']; [reflexivity|contradiction].
  - assert (Hn : 0 < n).
    { subst n. change (length (p :: ps')) with (S (length ps')).
      rewrite S_INR. pose proof (pos_INR (length ps')). lra. }
    assert (HnA : n * sxx - sx * sx = n * A) by (rewrite EA; field; lra).
    assert (HnB : n * syy - sy * sy = n * B) by (rewrite EB; field; lra).
    assert (HnC : n * sxy - sx * sy = n * C) by (rewrite EC; field; lra).
    rewrite HnA, HnB, HnC.
    assert (Hden : sqrt (n * A) * sqrt (n * B) = n * sqrt (A * B)).
    { rewrite <- sqrt_mult by nra.
      replace (n * A * (n * B)) with ((n * n) * (A * B)) by ring.
      rewrite sqrt_mult by nra.
      rewrite sqrt_square by lra. reflexivity. }
    rewrite Hden.
    destruct (Req_EM_T (sqrt (A * B)) 0) as [H0|H0];
      destruct (Req_EM_T (n * sqrt (A * B)) 0) as [H1|H1].
    + reflexivity.
    + exfalso. apply H1. rewrite H0. ring.
    + exfalso. apply Rmult_integral in H1. destruct H1; [lra|contradiction].
    + f_equal. field. split; [exact H0|lra].
Qed.

End PearsonFacts.

(* ===================================================================== *)
(** ** Labels and cells of the tables *)
(* ===================================================================== *)

Section TableFacts.

Lemma column_names_of_dict (data : list (string * Series)) :
  column_names (DataFrame_of_dict data) = map fst data.
Proof. unfold column_names, DataFrame_of_dict; cbn. rewrite map_map. reflexivity. Qed.

Lemma column_names_pct_change {I} (fm : FillMethod) (df : DataFrame I) :
  column_names (pct_change fm df) = column_names df.
Proof. unfold column_names, pct_change; cbn. rewrite map_map. reflexivity. Qed.

Lemma column_names_corr {I} (df : DataFrame I) :
  column_names (corr df) = column_names df.
Proof. unfold column_names, corr; cbn. rewrite map_map. reflexivity. Qed.

Lemma index_corr {I} (df : DataFrame I) : index (corr df) = column_names df.
Proof. reflexivity. Qed.

Lemma well_formed_corr {I} (df : DataFrame I) : well_formed (corr df).
Proof.
  unfold well_formed, corr, column_names; cbn.
  apply Forall_forall. intros c Hc. apply list_elem_of_In, in_map_iff in Hc.
  destruct Hc as [cj [<- _]]. cbn. rewrite !length_map. reflexivity.
Qed.

Lemma column_of_named (a : string) (cols : list (string * list Cell)) :
  In a (map fst cols) -> exists c, column_of a cols = Some c.
Proof.
  induction cols as [|[b c] cols IH]; cbn; [tauto|].
  intros [->|H].
  - rewrite String.eqb_refl. eauto.
  - destruct (String.eqb a b); eauto.
Qed.

Lemma column_of_names (a : string) (c : list Cell) (cols : list (string * list Cell)) :
  column_of a cols = Some c -> In a (map fst cols).
Proof.
  induction cols as [|[b c'] cols IH]; cbn; [discriminate|].
  destruct (String.eqb a b) eqn:E.
  - apply String.eqb_eq in E. subst. tauto.
  - intros H. right. apply IH, H.
Qed.

(** The column found under a name sits at the position of that name. *)
Lemma column_of_position (a : string) (cols : list (string * list Cell)) (c : list Cell) :
  column_of a cols = Some c ->
  exists i, position a (map fst cols) = Some i /\ nth_error cols i = Some (a, c).
Proof.
  induction cols as [|[b c'] cols IH]; cbn; [discriminate|].
  destruct (String.eqb a b) eqn:E.
  - apply String.eqb_eq in E. subst b. intros [= ->]. exists O. split; reflexivity.
  - intros H. destruct (IH H) as [i [Hp Hn]]. exists (S i). rewrite Hp. split; [reflexivity|exact Hn].
Qed.


Lemma column_of_map (f : string * list Cell -> list Cell) (a : string)
      (cols : list (string * list Cell)) :
  column_of a (map (fun c => (fst c, f c)) cols)
  = match position a (map fst cols) with
    | Some i => option_map f (nth_error cols i)
    | None => None
    end.
Proof.
  induction cols as [|[b c] cols IH]; cbn; [reflexivity|].
  destruct (String.eqb a b); [reflexivity|].
  rewrite IH. destruct (position a (map fst cols)); reflexivity.
Qed.

(** The cell of the correlation table in row [r] and column [c] is the
    coefficient of the two columns of those names. *)
Lemma at_corr {I} (df : DataFrame I) (r c : string) (cr cc : list Cell) :
  column_of r (columns df) = Some cr ->
  column_of c (columns df) = Some cc ->
  at_ (corr df) r c = Some (pearson cr cc).
Proof.
  intros Hr Hc. unfold at_, corr. cbn [columns index].
  rewrite (column_of_map (fun cj => map (fun ci => pearson (snd ci) (snd cj)) (columns df))).
  destruct (column_of_position _ _ _ Hc) as [j [Hpj Hnj]].
  destruct (column_of_position _ _ _ Hr) as [i [Hpi Hni]].
  unfold column_names. rewrite Hpj, Hnj, Hpi. cbn.
  rewrite nth_error_map, Hni. reflexivity.
Qed.


Lemma column_of_pct_change {I} (fm : FillMethod) (df : DataFrame I) (a : string) :
  column_of a (columns (pct_change fm df))
  = option_map (pct_change_column fm) (column_of a (columns df)).
Proof.
  unfold pct_change. cbn [columns].
  induction (columns df) as [|[b c] cols IH]; cbn; [reflexivity|].
  destruct (String.eqb a b); [reflexivity|exact IH].
Qed.

End TableFacts.

(* ===================================================================== *)
(** ** The dict the loop collects *)
(* ===================================================================== *)

Lemma known_In (t : string) (seen : list string) : known t seen = true <-> In t seen.
Proof.
  unfold known. rewrite existsb_exists. split.
  - intros [x [Hx E]]. apply String.eqb_eq in E. subst. exact Hx.
  - intros H. exists t. split; [exact H|apply String.eqb_refl].
Qed.

Lemma known_cons (t u : string) (seen : list string) :
  known t (u :: seen) = String.eqb t u || known t seen.
Proof. reflexivity. Qed.

Lemma dict_set_keys {V} (k : string) (v : V) (d : list (string * V)) :
  map fst (dict_set k v d)
  = if known k (map fst d) then map fst d else map fst d ++ [k].
Proof.
  induction d as [|[k' v'] d IH]; cbn; [reflexivity|].
  rewrite known_cons.
  destruct (String.eqb k k') eqn:E; cbn.
  - apply String.eqb_eq in E. subst. reflexivity.
  - rewrite IH. destruct (known k (map fst d)); reflexivity.
Qed.

Lemma first_occurrences_seen (s1 s2 : list string) (l : list string) :
  (forall x, In x s1 <-> In x s2) ->
  first_occurrences s1 l = first_occurrences s2 l.
Proof.
  revert s1 s2. induction l as [|t l IH]; intros s1 s2 H; cbn; [reflexivity|].
  assert (E : known t s1 = known t s2).
  { destruct (known t s1) eqn:E1, (known t s2) eqn:E2; try reflexivity.
    - apply known_In, H, known_In in E1. congruence.
    - apply known_In, H, known_In in E2. congruence. }
  rewrite E. destruct (known t s2).
  - apply IH, H.
  - f_equal. apply IH. intros x; cbn. rewrite H. tauto.
Qed.

Lemma first_occurrences_In (t : string) (l : list string) :
  forall seen, In t (first_occurrences seen l) <-> In t l /\ ~ In t seen.
Proof.
  induction l as [|u l IH]; intros seen; cbn; [tauto|].
  destruct (known u seen) eqn:E.
  - apply known_In in E. rewrite IH. split.
    + tauto.
    + intros [[->|H] Hn]; tauto.
  - assert (Hu : ~ In u seen) by (rewrite <- known_In; congruence).
    cbn. rewrite IH. cbn. split.
    + intros [->|[H Hn]]; tauto.
    + intros [[->|H] Hn]; [tauto|].
      destruct (String.eqb u t) eqn:Eq.
      * apply String.eqb_eq in Eq. tauto.
      * apply String.eqb_neq in Eq. tauto.
Qed.

Lemma first_occurrences_NoDup (l : list string) :
  forall seen, List.NoDup (first_occurrences seen l).
Proof.
  induction l as [|u l IH]; intros seen; cbn; [constructor|].
  destruct (known u seen); [apply IH|].
  constructor; [|apply IH].
  rewrite first_occurrences_In. cbn. tauto.
Qed.

Lemma first_occurrences_sublist (l : list string) :
  forall seen, sublist (first_occurrences seen l) l.
Proof.
  induction l as [|u l IH]; intros seen; cbn; [constructor|].
  destruct (known u seen).
  - apply sublist_cons, IH.
  - apply sublist_skip, IH.
Qed.

Lemma filter_sublist {A} (f : A -> bool) (l : list A) : sublist (List.filter f l) l.
Proof.
  induction l as [|x l IH]; cbn; [constructor|].
  destruct (f x); [apply sublist_skip|apply sublist_cons]; exact IH.
Qed.

Lemma first_occurrences_distinct (l : list string) :
  List.NoDup l -> first_occurrences [] l = l.
Proof.
  assert (G : forall seen, List.NoDup l -> (forall x, In x l -> ~ In x seen) ->
                           first_occurrences seen l = l).
  { induction l as [|u l IH]; intros seen Hnd Hs; cbn; [reflexivity|].
    inversion Hnd as [|? ? Hu Hl]; subst.
    destruct (known u seen) eqn:E.
    - apply known_In in E. exfalso. apply (Hs u); cbn; tauto.
    - f_equal. apply IH; [exact Hl|].
      intros x Hx [->|Hin]; [contradiction|]. apply (Hs x); cbn; tauto. }
  intros H. apply G; [exact H|]. intros x _ [].
Qed.

Section CollectFacts.

Variable fetch : string -> Outcome Series.

(** The keys of the collected dict: those it had, then the tickers fetched
    for the first time, in the order of the list. *)
Lemma collect_keys (ts : list string) :
  forall data,
    map fst (collect fetch ts data)
    = map fst data ++ first_occurrences (map fst data) (List.filter (succeeded fetch) ts).
Proof.
  induction ts as [|t ts IH]; intros data; cbn; [rewrite app_nil_r; reflexivity|].
  unfold succeeded at 1.
  destruct (fetch t) as [s|e]; [|apply IH].
  rewrite IH, dict_set_keys. cbn.
  destruct (known t (map fst data)) eqn:E; [reflexivity|].
  rewrite <- app_assoc. cbn. do 2 f_equal.
  apply first_occurrences_seen. intros x. rewrite in_app_iff. cbn. tauto.
Qed.

Lemma dict_set_fetched (t : string) (s : Series) (data : list (string * Series)) :
  fetch t = Return s -> List.Forall (fetched fetch) data -> List.Forall (fetched fetch) (dict_set t s data).
Proof.
  intros Hf. induction 1 as [|[k v] d Hk Hd IH]; cbn.
  - constructor; [exact Hf|constructor].
  - destruct (String.eqb t k); constructor; assumption.
Qed.

Lemma collect_fetched (ts : list string) :
  forall data, List.Forall (fetched fetch) data -> List.Forall (fetched fetch) (collect fetch ts data).
Proof.
  induction ts as [|t ts IH]; intros data H; cbn; [exact H|].
  destruct (fetch t) as [s|e] eqn:E; apply IH; [|exact H].
  apply dict_set_fetched; assumption.
Qed.

(** The collected dict in closed form: every fetched ticker once, with the
    series the provider gave for it. *)
Lemma collect_closed (ts : list string) :
  collect fetch ts [] = map (fun t => (t, spec_closes fetch t)) (spec_tickers fetch ts).
Proof.
  pose proof (collect_keys ts []) as Hk. cbn in Hk. fold (spec_tickers fetch ts) in Hk.
  pose proof (collect_fetched ts [] (List.Forall_nil _)) as Hv.
  rewrite <- Hk. clear Hk.
  induction Hv as [|[k v] d Hkv Hd IH]; cbn; [reflexivity|].
  rewrite <- IH. unfold fetched in Hkv; cbn in Hkv.
  unfold spec_closes. rewrite Hkv. reflexivity.
Qed.

End CollectFacts.

(* ===================================================================== *)
(** ** What the routine returns, raises and leaves behind *)
(* ===================================================================== *)

Section RoutineFacts.

Variable yf_history : string -> string -> Outcome Series.
Variable sns_heatmap : DataFrame string -> option PyExn.
Variable fill_method : FillMethod.

Abbreviation analyze := (analyze_market_correlations yf_history sns_heatmap fill_method).

(** Whatever is returned is the correlation table of the returns of the
    collected prices. *)
Lemma analyze_returned (tickers : loc) (period : string) (w : World) (m : DataFrame string) :
  fst (analyze tickers period w) = Return m ->
  exists ts, heap w !! tickers = Some (PyList ts)
             /\ m = corr (return_table fill_method (attempt yf_history w period) ts).
Proof.
  rewrite analyze_unfold.
  destruct (heap w !! tickers) as [[ts|d|f]|]; cbn; try discriminate.
  destruct (binding "pd" (globals w)); cbn; [|discriminate].
  destruct (binding "plt" (globals w)); cbn; [|discriminate].
  destruct (binding "sns" (globals w)); cbn; [|discriminate].
  destruct (sns_heatmap _); cbn; [discriminate|].
  intros [= <-]. exists ts. split; reflexivity.
Qed.

(** With [pd], [plt] and [sns] bound and a drawing call that does not fail,
    the routine returns. *)
Lemma analyze_returns (tickers : loc) (period : string) (w : World) (ts : list string) :
  heap w !! tickers = Some (PyList ts) ->
  binding "pd" (globals w) <> None ->
  binding "plt" (globals w) <> None ->
  binding "sns" (globals w) <> None ->
  sns_heatmap (corr (return_table fill_method (attempt yf_history w period) ts)) = None ->
  fst (analyze tickers period w)
  = Return (corr (return_table fill_method (attempt yf_history w period) ts)).
Proof.
  intros Hl Hpd Hplt Hsns Hdraw. rewrite analyze_unfold, Hl. cbn.
  destruct (binding "pd" (globals w)); [|contradiction].
  destruct (binding "plt" (globals w)); [|contradiction].
  destruct (binding "sns" (globals w)); [|contradiction].
  rewrite Hdraw. reflexivity.
Qed.

(** With [sns] unbound, the routine ends in [NameError]. *)
Lemma analyze_without_sns (tickers : loc) (period : string) (w : World) (ts : list string) :
  heap w !! tickers = Some (PyList ts) ->
  binding "pd" (globals w) <> None ->
  binding "plt" (globals w) <> None ->
  binding "sns" (globals w) = None ->
  analyze tickers period w
  = (Raise (NameError "sns"),
     mkWorld (heap w) (globals w)
             (stdout w ++ diagnostics (attempt yf_history w period) ts)
             (requests w ++ requested w period ts)
             (canvas w ++ [Figure 10 8])).
Proof.
  intros Hl Hpd Hplt Hsns. rewrite analyze_unfold, Hl. cbn.
  destruct (binding "pd" (globals w)); [|contradiction].
  destruct (binding "plt" (globals w)); [|contradiction].
  rewrite Hsns. reflexivity.
Qed.

(** The routine writes to no object and binds no global name. *)
Lemma analyze_frame (tickers : loc) (period : string) (w : World) :
  heap (snd (analyze tickers period w)) = heap w
  /\ globals (snd (analyze tickers period w)) = globals w.
Proof.
  rewrite analyze_unfold.
  destruct (heap w !! tickers) as [[ts|d|f]|]; cbn; try (split; reflexivity).
  destruct (binding "pd" (globals w)); cbn; [|split; reflexivity].
  destruct (binding "plt" (globals w)); cbn; [|split; reflexivity].
  destruct (binding "sns" (globals w)); cbn; [|split; reflexivity].
  destruct (sns_heatmap _); cbn; split; reflexivity.
Qed.

Lemma analyze_requests (tickers : loc) (period : string) (w : World) (ts : list string) :
  heap w !! tickers = Some (PyList ts) ->
  requests (snd (analyze tickers period w)) = requests w ++ requested w period ts.
Proof.
  intros Hl. rewrite analyze_unfold, Hl. cbn.
  destruct (binding "pd" (globals w)); cbn; [|reflexivity].
  destruct (binding "plt" (globals w)); cbn; [|reflexivity].
  destruct (binding "sns" (globals w)); cbn; [|reflexivity].
  destruct (sns_heatmap _); reflexivity.
Qed.

Lemma analyze_stdout (tickers : loc) (period : string) (w : World) (ts : list string) :
  heap w !! tickers = Some (PyList ts) ->
  stdout (snd (analyze tickers period w))
  = stdout w ++ diagnostics (attempt yf_history w period) ts.
Proof.
  intros Hl. rewrite analyze_unfold, Hl. cbn.
  destruct (binding "pd" (globals w)); cbn; [|reflexivity].
  destruct (binding "plt" (globals w)); cbn; [|reflexivity].
  destruct (binding "sns" (globals w)); cbn; [|reflexivity].
  destruct (sns_heatmap _); reflexivity.
Qed.

Lemma diagnostics_In (fetch : string -> Outcome Series) (ts : list string) (t : string) (e : PyExn) :
  In t ts -> fetch t = Raise e ->
  In ("Failed to get data for " ++ t)%string (diagnostics fetch ts).
Proof.
  intros Hin Hf. unfold diagnostics. apply in_flat_map. exists t. split; [exact Hin|].
  rewrite Hf. left. reflexivity.
Qed.

Lemma failed_not_collected (fetch : string -> Outcome Series) (ts : list string) (t : string) (e : PyExn) :
  fetch t = Raise e -> ~ In t (spec_tickers fetch ts).
Proof.
  intros Hf. unfold spec_tickers. rewrite first_occurrences_In, filter_In.
  unfold succeeded. rewrite Hf. intros [[_ H] _]. discriminate.
Qed.

Lemma return_table_names (fetch : string -> Outcome Series) (ts : list string) :
  column_names (return_table fill_method fetch ts) = spec_tickers fetch ts.
Proof.
  unfold return_table, price_table.
  rewrite column_names_pct_change, column_names_of_dict, collect_closed, map_map.
  cbn. apply map_id.
Qed.

End RoutineFacts.

(* ===================================================================== *)
(** ** The routine in the notebook's namespace *)
(* ===================================================================== *)

Section Namespace.

Variable yf_history : string -> string -> Outcome Series.
Variable sns_heatmap : DataFrame string -> option PyExn.
Variable fill_method : FillMethod.

Abbreviation analyze := (analyze_market_correlations yf_history sns_heatmap fill_method).

(** The world [ready pre ts]: the list is object 6, the cell's imports
    are bound, and [sns] is bound only if [pre] binds it. *)
Lemma ready_world (pre : list (string * PyVal)) (ts : list string) :
  heap (ready pre ts) !! 6%nat = Some (PyList ts)
  /\ binding "yf" (globals (ready pre ts)) = Some (VModule "yfinance")
  /\ binding "pd" (globals (ready pre ts)) = Some (VModule "pandas")
  /\ binding "plt" (globals (ready pre ts)) = Some (VModule "matplotlib.pyplot")
  /\ binding "sns" (globals (ready pre ts)) = binding "sns" pre
  /\ stdout (ready pre ts) = []
  /\ requests (ready pre ts) = [].
Proof. repeat split; reflexivity. Qed.

Lemma call_on_ready (pre : list (string * PyVal)) (ts : list string) (period : string) :
  call_on yf_history sns_heatmap fill_method ts period (loaded pre)
  = analyze 6%nat period (ready pre ts).
Proof. reflexivity. Qed.

Lemma attempt_ready (pre : list (string * PyVal)) (ts : list string) (period t : string) :
  attempt yf_history (ready pre ts) period t = yf_history t period.
Proof. reflexivity. Qed.

(** In the namespace the cell itself sets up, every call of the routine on a
    list ends in [NameError]: the cell never binds [sns]. *)
Lemma call_on_fresh (ts : list string) (period : string) :
  call_on yf_history sns_heatmap fill_method ts period (loaded [])
  = (Raise (NameError "sns"),
     mkWorld (heap (ready [] ts)) (globals (ready [] ts))
             (diagnostics (attempt yf_history (ready [] ts) period) ts)
             (map (fun t => (t, period)) ts)
             [Figure 10 8]).
Proof.
  rewrite call_on_ready.
  destruct (ready_world [] ts) as (Hl & Hyf & Hpd & Hplt & Hsns & Hout & Hreq).
  rewrite (analyze_without_sns _ _ _ _ _ _ ts Hl);
    [|rewrite Hpd; discriminate|rewrite Hplt; discriminate|exact Hsns].
  rewrite Hout, Hreq. unfold requested. rewrite Hyf. reflexivity.
Qed.

End Namespace.

(* ===================================================================== *)
(** ** The claims about the routine *)
(* ===================================================================== *)

Section RoutineClaims.

Variable yf_history : string -> string -> Outcome Series.
Variable sns_heatmap : DataFrame string -> option PyExn.
Variable fill_method : FillMethod.

Abbreviation analyze := (analyze_market_correlations yf_history sns_heatmap fill_method).

(** C1. Called in the namespace the cell sets up, on a list that holds a
    ticker [t] whose fetch raises: the exception of the fetch is caught, the
    line "Failed to get data for t" is printed and the table that was built
    has no column for [t]; but the call itself ends in [NameError] for [sns],
    which the cell never imports, so an exception does escape the routine. *)
Theorem fetch_failure_caught_but_NameError_escapes
    (ts : list string) (period t : string) (e : PyExn) :
  In t ts ->
  yf_history t period = Raise e ->
  let run := call_on yf_history sns_heatmap fill_method ts period (loaded []) in
  fst run = Raise (NameError "sns")
  /\ In ("Failed to get data for " ++ t)%string (stdout (snd run))
  /\ ~ In t (column_names
               (return_table fill_method (attempt yf_history (ready [] ts) period) ts)).
Proof.
  intros Hin Hf run. subst run. rewrite call_on_fresh. cbn [fst snd stdout].
  split; [reflexivity|]. split.
  - apply (diagnostics_In _ _ _ e Hin). rewrite attempt_ready. exact Hf.
  - rewrite return_table_names. apply (failed_not_collected _ _ _ e).
    rewrite attempt_ready. exact Hf.
Qed.

(** Where the routine does return, a failed fetch is handled as intended:
    the line is printed and the matrix has neither a row nor a column for
    the ticker. *)
Lemma fetch_failure_omitted_from_returned_matrix
    (tickers : loc) (period : string) (w : World) (m : DataFrame string)
    (ts : list string) (t : string) (e : PyExn) :
  fst (analyze tickers period w) = Return m ->
  heap w !! tickers = Some (PyList ts) ->
  In t ts ->
  attempt yf_history w period t = Raise e ->
  In ("Failed to get data for " ++ t)%string (stdout (snd (analyze tickers period w)))
  /\ ~ In t (index m)
  /\ ~ In t (column_names m).
Proof.
  intros Hret Hl Hin Hf.
  destruct (analyze_returned _ _ _ _ _ _ _ Hret) as [ts' [Hl' ->]].
  rewrite Hl in Hl'. injection Hl' as <-.
  rewrite (analyze_stdout _ _ _ _ _ _ ts Hl), index_corr, column_names_corr,
    return_table_names.
  split; [|split].
  - apply in_or_app. right. apply (diagnostics_In _ _ _ e Hin Hf).
  - apply (failed_not_collected _ _ _ e Hf).
  - apply (failed_not_collected _ _ _ e Hf).
Qed.

(** C2. Called on the empty list in the namespace the cell sets up, the
    routine does not return the empty matrix: it raises [NameError] for [sns]
    after it has opened the figure. *)
Theorem empty_list_raises_NameError (period : string) :
  call_on yf_history sns_heatmap fill_method [] period (loaded [])
  = (Raise (NameError "sns"),
     mkWorld (heap (ready [] [])) (globals (ready [] [])) [] [] [Figure 10 8]).
Proof. rewrite call_on_fresh. reflexivity. Qed.

(** C3. A matrix the routine returns is square, with the same labels on rows
    and columns and one cell for every pair of labels, and it is symmetric:
    the cell of row [i] and column [j] is the cell of row [j] and column [i]. *)
Theorem returned_matrix_square_symmetric
    (tickers : loc) (period : string) (w : World) (m : DataFrame string) :
  fst (analyze tickers period w) = Return m ->
  index m = column_names m
  /\ well_formed m
  /\ forall i j, In i (index m) -> In j (index m) ->
       exists v, at_ m i j = Some v /\ at_ m j i = Some v.
Proof.
  intros Hret. destruct (analyze_returned _ _ _ _ _ _ _ Hret) as [ts [_ ->]].
  split; [|split].
  - rewrite index_corr, column_names_corr. reflexivity.
  - apply well_formed_corr.
  - intros i j Hi Hj. rewrite index_corr in Hi, Hj.
    destruct (column_of_named _ _ Hi) as [ci Hci].
    destruct (column_of_named _ _ Hj) as [cj Hcj].
    exists (pearson ci cj). split.
    + apply at_corr; assumption.
    + rewrite (pearson_sym ci cj). apply at_corr; assumption.
Qed.

(** C4. In a matrix the routine returns, the diagonal cell of a ticker whose
    column of percentage returns has nonzero variance is 1. *)
Theorem diagonal_is_one
    (tickers : loc) (period : string) (w : World) (m : DataFrame string)
    (ts : list string) (t : string) (returns : list Cell) :
  fst (analyze tickers period w) = Return m ->
  heap w !! tickers = Some (PyList ts) ->
  column_of t (columns (return_table fill_method (attempt yf_history w period) ts))
    = Some returns ->
  variation returns <> 0%R ->
  at_ m t t = Some (Some 1%R).
Proof.
  intros Hret Hl Hcol Hvar.
  destruct (analyze_returned _ _ _ _ _ _ _ Hret) as [ts' [Hl' ->]].
  rewrite Hl in Hl'. injection Hl' as <-.
  rewrite (at_corr _ _ _ _ _ Hcol Hcol), (pearson_diag _ Hvar). reflexivity.
Qed.



(** C10. The row labels and the column labels of a matrix the routine returns
    are the tickers of the list whose fetch succeeded, each once, in the
    order of their first occurrence in the list. *)
Theorem labels_are_fetched_tickers_in_order
    (tickers : loc) (period : string) (w : World) (m : DataFrame string)
    (ts : list string) :
  fst (analyze tickers period w) = Return m ->
  heap w !! tickers = Some (PyList ts) ->
  index m = column_names m
  /\ (forall t, In t (index m) <->
                In t ts /\ exists s, attempt yf_history w period t = Return s)
  /\ List.NoDup (index m)
  /\ sublist (index m) ts
  /\ (List.NoDup ts ->
      index m = List.filter (succeeded (attempt yf_history w period)) ts).
Proof.
  intros Hret Hl.
  destruct (analyze_returned _ _ _ _ _ _ _ Hret) as [ts' [Hl' ->]].
  rewrite Hl in Hl'. injection Hl' as <-.
  rewrite index_corr, column_names_corr, return_table_names.
  unfold spec_tickers.
  split; [reflexivity|]. split; [|split; [|split]].
  - intros t. rewrite first_occurrences_In, filter_In. unfold succeeded.
    destruct (attempt yf_history w period t) as [s|e].
    + split; [intros [[H _] _]; eauto|intros [H _]; cbn; tauto].
    + split; [intros [[_ H] _]; discriminate|intros [_ [s H]]; discriminate].
  - apply first_occurrences_NoDup.
  - etransitivity; [apply first_occurrences_sublist|apply filter_sublist].
  - intros Hnd. apply first_occurrences_distinct, List.NoDup_filter, Hnd.
Qed.

End RoutineClaims.

(* ===================================================================== *)
(** ** The returned table and the reference definition *)
(* ===================================================================== *)

Section Refinement.

Variable fill_method : FillMethod.
Variable fetch : string -> Outcome Series.

Lemma pct_spec_change (prev cur : Cell) : pct prev cur = spec_change prev cur.
Proof.
  destruct prev as [p|], cur as [c|]; cbn; try reflexivity.
  destruct (Req_EM_T p 0) as [|Hp]; [reflexivity|].
  f_equal. field. exact Hp.
Qed.

(** Padding and then dividing neighbours is the one-pass reference. *)
Lemma pct_change_column_spec (xs : list Cell) :
  pct_change_column fill_method xs = spec_changes fill_method None xs.
Proof.
  unfold pct_change_column. generalize (@None R) as prev.
  destruct fill_method.
  - induction xs as [|[v|] xs IH]; intros prev; cbn; [reflexivity| |];
      rewrite pct_spec_change, IH; reflexivity.
  - induction xs as [|x xs IH]; intros prev; cbn; [reflexivity|].
    rewrite pct_spec_change, IH. destruct x; reflexivity.
Qed.

Lemma return_table_columns (ts : list string) :
  columns (return_table fill_method fetch ts)
  = map (fun t => (t, spec_returns fill_method fetch ts t)) (spec_tickers fetch ts).
Proof.
  unfold return_table, price_table, pct_change, DataFrame_of_dict. cbn [columns index].
  rewrite collect_closed, !map_map. cbn [fst snd].
  apply map_ext. intros t. unfold spec_returns, spec_dates.
  rewrite pct_change_column_spec. reflexivity.
Qed.

(** The table the routine computes is the reference table. *)
Lemma corr_return_table (ts : list string) :
  corr (return_table fill_method fetch ts)
  = spec_correlation_matrix fill_method fetch ts.
Proof.
  unfold corr, spec_correlation_matrix, column_names.
  rewrite return_table_columns, !map_map. cbn [fst snd].
  rewrite map_id. f_equal.
  apply map_ext. intros c. f_equal.
  rewrite map_map. apply map_ext. intros r. cbn [snd].
  apply pearson_spec_pearson.
Qed.

End Refinement.

(* ===================================================================== *)
(** ** The routine on fixed price histories *)
(* ===================================================================== *)

Section MockRuns.

Local Open Scope R_scope.

(** In a kernel that has seaborn, with a drawing call that does not fail, the
    routine returns the correlation table. *)
Lemma mock_returns (book : list (string * list Z)) (ts : list string) :
  fst (analyze_market_correlations (Mock.history book) Mock.draws Pad 6%nat "3mo"
         (ready seaborn ts))
  = Return (Mock.matrix_of book ts).
Proof.
  destruct (ready_world seaborn ts) as (Hl & Hyf & Hpd & Hplt & Hsns & _).
  apply analyze_returns; try reflexivity.
  - rewrite Hpd; discriminate.
  - rewrite Hplt; discriminate.
  - rewrite Hsns; discriminate.
Qed.

Lemma mock_list (ts : list string) :
  heap (ready seaborn ts) !! 6%nat = Some (PyList ts).
Proof. reflexivity. Qed.

(** C1, witness: the book lists AAA and BBB, so the fetch of CCC fails. *)
Lemma fetch_failure_witness :
  let run := call_on (Mock.history Mock.twin_book) Mock.draws Pad
               ["AAA"; "CCC"; "BBB"] "3mo" (loaded []) in
  fst run = Raise (NameError "sns")
  /\ In "Failed to get data for CCC" (stdout (snd run))
  /\ ~ In "CCC" (column_names
                   (return_table Pad
                      (attempt (Mock.history Mock.twin_book)
                         (ready [] ["AAA"; "CCC"; "BBB"]) "3mo")
                      ["AAA"; "CCC"; "BBB"])).
Proof.
  apply (fetch_failure_caught_but_NameError_escapes
           (Mock.history Mock.twin_book) Mock.draws Pad
           ["AAA"; "CCC"; "BBB"] "3mo" "CCC" (Exception "HTTPError" "no data")).
  - cbn. tauto.
  - reflexivity.
Defined.

(** C3, witness. *)
Lemma returned_matrix_witness :
  let m := Mock.matrix_of Mock.twin_book ["AAA"; "CCC"; "BBB"] in
  index m = column_names m
  /\ well_formed m
  /\ forall i j, In i (index m) -> In j (index m) ->
       exists v, at_ m i j = Some v /\ at_ m j i = Some v.
Proof.
  apply (returned_matrix_square_symmetric
           (Mock.history Mock.twin_book) Mock.draws Pad 6%nat "3mo"
           (ready seaborn ["AAA"; "CCC"; "BBB"])).
  apply mock_returns.
Defined.

(** C4, witness: the returns of AAA are 1 and 1/2. *)
Lemma diagonal_witness :
  at_ (Mock.matrix_of Mock.twin_book ["AAA"; "CCC"; "BBB"]) "AAA" "AAA" = Some (Some 1).
Proof.
  eapply (diagonal_is_one
            (Mock.history Mock.twin_book) Mock.draws Pad 6%nat "3mo"
            (ready seaborn ["AAA"; "CCC"; "BBB"])).
  - apply mock_returns.
  - apply mock_list.
  - evaluate. zero_tests. reflexivity.
  - evaluate. lra.
Defined.














(** C10, witness: BBB is listed twice and CCC is not in the book. *)
Lemma labels_witness :
  let ts := ["BBB"; "CCC"; "AAA"; "BBB"]%string in
  let w := ready seaborn ts in
  let m := Mock.matrix_of Mock.twin_book ts in
  index m = column_names m
  /\ (forall t, In t (index m) <->
                In t ts /\ exists s, attempt (Mock.history Mock.twin_book) w "3mo" t = Return s)
  /\ List.NoDup (index m)
  /\ sublist (index m) ts
  /\ (List.NoDup ts ->
      index m = List.filter (succeeded (attempt (Mock.history Mock.twin_book) w "3mo")) ts).
Proof.
  apply (labels_are_fetched_tickers_in_order
           (Mock.history Mock.twin_book) Mock.draws Pad 6%nat "3mo"
           (ready seaborn ["BBB"; "CCC"; "AAA"; "BBB"])).
  - apply mock_returns.
  - apply mock_list.
Defined.

Example labels_example :
  index (Mock.matrix_of Mock.twin_book ["BBB"; "CCC"; "AAA"; "BBB"]) = ["BBB"; "AAA"]%string.
Proof. reflexivity. Qed.

End MockRuns.

Section RefinementClaim.

Local Open Scope R_scope.

Variable yf_history : string -> string -> Outcome Series.
Variable sns_heatmap : DataFrame string -> option PyExn.
Variable fill_method : FillMethod.

(** On the prices 1, 2, 4 both returns are 1, so the correlation of the
    returns is missing where the correlation of the prices is 1. *)
Lemma doubling_returns_differ_from_prices :
  spec_correlation_matrix fill_method (fun t => Mock.history Mock.doubling_book t "3mo") ["AAA"]
  <> raw_price_correlation (fun t => Mock.history Mock.doubling_book t "3mo") ["AAA"].
Proof.
  rewrite <- corr_return_table. intros Heq.
  assert (Hr : at_ (corr (return_table fill_method
                            (fun t => Mock.history Mock.doubling_book t "3mo") ["AAA"]))
                   "AAA" "AAA" = Some None).
  { assert (Hc : column_of "AAA"
                   (columns (return_table fill_method
                               (fun t => Mock.history Mock.doubling_book t "3mo") ["AAA"]))
                 = Some [None; Some (2 / 1 - 1); Some (4 / 2 - 1)]).
    { destruct fill_method; evaluate; zero_tests; reflexivity. }
    rewrite (at_corr _ _ _ _ _ Hc Hc), pearson_diag_missing; [reflexivity|].
    evaluate. lra. }
  assert (Hp : at_ (raw_price_correlation
                      (fun t => Mock.history Mock.doubling_book t "3mo") ["AAA"])
                   "AAA" "AAA" = Some (Some 1)).
  { assert (Hc : column_of "AAA"
                   (columns (price_table
                               (fun t => Mock.history Mock.doubling_book t "3mo") ["AAA"]))
                 = Some [Some 1; Some 2; Some 4]) by reflexivity.
    unfold raw_price_correlation.
    rewrite (at_corr _ _ _ _ _ Hc Hc), pearson_diag; [reflexivity|].
    evaluate. lra. }
  rewrite Heq, Hp in Hr. discriminate Hr.
Qed.

(** C7. A matrix the routine returns is the reference table: the Pearson
    coefficients, by the sums formula, of the day-over-day percentage changes
    of the closing prices of the tickers that were fetched. That is not the
    correlation of the prices themselves: on the prices 1, 2, 4 of a single
    ticker the two differ. *)
Theorem returned_matrix_is_pearson_of_returns
    (tickers : loc) (period : string) (w : World) (m : DataFrame string)
    (ts : list string) :
  fst (analyze_market_correlations yf_history sns_heatmap fill_method tickers period w)
    = Return m ->
  heap w !! tickers = Some (PyList ts) ->
  m = spec_correlation_matrix fill_method (attempt yf_history w period) ts
  /\ exists (book : list (string * list Z)) (ts' : list string),
       spec_correlation_matrix fill_method (fun t => Mock.history book t "3mo") ts'
       <> raw_price_correlation (fun t => Mock.history book t "3mo") ts'.
Proof.
  intros Hret Hl.
  destruct (analyze_returned _ _ _ _ _ _ _ Hret) as [ts' [Hl' ->]].
  rewrite Hl in Hl'. injection Hl' as <-.
  split; [apply corr_return_table|].
  exists Mock.doubling_book, ["AAA"%string]. apply doubling_returns_differ_from_prices.
Qed.

End RefinementClaim.

(** C7, witness. *)
Lemma reference_witness :
  Mock.matrix_of Mock.twin_book ["AAA"; "CCC"; "BBB"]
  = spec_correlation_matrix Pad
      (attempt (Mock.history Mock.twin_book)
         (ready seaborn ["AAA"; "CCC"; "BBB"]) "3mo")
      ["AAA"; "CCC"; "BBB"]
  /\ exists (book : list (string * list Z)) (ts' : list string),
       spec_correlation_matrix Pad (fun t => Mock.history book t "3mo") ts'
       <> raw_price_correlation (fun t => Mock.history book t "3mo") ts'.
Proof.
  apply (returned_matrix_is_pearson_of_returns
           (Mock.history Mock.twin_book) Mock.draws Pad 6%nat "3mo"
           (ready seaborn ["AAA"; "CCC"; "BBB"])).
  - apply mock_returns.
  - apply mock_list.
Defined.

(* ===================================================================== *)
(** ** The cell as a whole *)
(* ===================================================================== *)

Section CellClaims.

Variable yf_history : string -> string -> Outcome Series.
Variable sns_heatmap : DataFrame string -> option PyExn.
Variable fill_method : FillMethod.

Abbreviation analyze := (analyze_market_correlations yf_history sns_heatmap fill_method).
Abbreviation cell := (notebook_cell yf_history sns_heatmap fill_method).

(** The world in which the routine is called: seven objects and the new list
    of ten tickers, nothing requested yet. *)
Lemma called_in_world (pre : list (string * PyVal)) :
  heap (called_in pre)
  = [PyList (category "indices"); PyList (category "sectors");
     PyList (category "commodities"); PyList (category "bonds");
     PyList (category "volatility");
     PyDict [("indices", 0); ("sectors", 1); ("commodities", 2); ("bonds", 3);
             ("volatility", 4)]%nat;
     PyList flattened; PyList passed]
  /\ binding "yf" (globals (called_in pre)) = Some (VModule "yfinance")
  /\ binding "research_universe" (globals (called_in pre)) = Some (VRef 5%nat)
  /\ binding "correlations" (globals (called_in pre)) = binding "correlations" pre
  /\ requests (called_in pre) = [].
Proof. repeat split; vm_compute; reflexivity. Qed.

Lemma bind_stage {A B} (m : M A) (k : A -> M B) (w : World) (a : A) :
  fst (m w) = Return a -> bind m k w = k a (snd (m w)).
Proof. unfold bind. destruct (m w) as [[a'|e] w']; cbn; congruence. Qed.

(** The cell is the call of the routine on object 7 in that world, followed
    by the assignment to [correlations] if the call returns. *)
Lemma cell_unfold (pre : list (string * PyVal)) :
  cell (kernel pre)
  = match analyze 7%nat "3mo" (called_in pre) with
    | (Return m, w') =>
        (Return tt,
         mkWorld (heap w' ++ [PyFrame m])
                 (("correlations", VRef (length (heap w'))) :: globals w')
                 (stdout w') (requests w') (canvas w'))
    | (Raise e, w') => (Raise e, w')
    end.
Proof.
  unfold notebook_cell, run_analysis.
  rewrite (bind_stage definitions _ _ tt) by (vm_compute; reflexivity).
  rewrite (bind_stage flatten_universe _ _ tt) by (vm_compute; reflexivity).
  rewrite (bind_stage (print _) _ _ tt) by (vm_compute; reflexivity).
  rewrite (bind_stage (lookup_global _) _ _ (VFunction "analyze_market_correlations"))
    by (vm_compute; reflexivity).
  rewrite (bind_stage first_ten _ _ 7%nat) by (vm_compute; reflexivity).
  match goal with
  | |- bind _ _ ?w = _ => replace w with (called_in pre) by (vm_compute; reflexivity)
  end.
  unfold bind at 1.
  destruct (analyze 7%nat "3mo" (called_in pre)) as [[m|e] w']; reflexivity.
Qed.

Lemma called_in_list (pre : list (string * PyVal)) :
  heap (called_in pre) !! 7%nat = Some (PyList passed).
Proof. vm_compute. reflexivity. Qed.

Lemma universe_view_frame (w w' : World) :
  heap w' = heap w -> globals w' = globals w -> universe_view w' = universe_view w.
Proof. intros Hh Hg. unfold universe_view. rewrite Hh, Hg. reflexivity. Qed.

(** The cell's heap and namespace after the call has ended, whichever way. *)
Lemma cell_world (pre : list (string * PyVal)) :
  (exists e, fst (cell (kernel pre)) = Raise e
             /\ heap (snd (cell (kernel pre))) = heap (called_in pre)
             /\ globals (snd (cell (kernel pre))) = globals (called_in pre))
  \/ (exists m, fst (analyze 7%nat "3mo" (called_in pre)) = Return m
                /\ heap (snd (cell (kernel pre))) = heap (called_in pre) ++ [PyFrame m]
                /\ globals (snd (cell (kernel pre)))
                   = ("correlations", VRef 8%nat) :: globals (called_in pre)).
Proof.
  rewrite cell_unfold.
  destruct (analyze_frame yf_history sns_heatmap fill_method 7%nat "3mo" (called_in pre))
    as [Hh Hg].
  destruct (analyze 7%nat "3mo" (called_in pre)) as [[m|e] w']; cbn [fst snd] in *.
  - right. exists m. cbn [heap globals]. rewrite Hh, Hg. repeat split.
  - left. exists e. repeat split; assumption.
Qed.

(** C8. The mapping read through [research_universe] is the literal once the
    definitions have run, and it is still the literal when the flattening
    loop has run, when the routine is called, and when the cell has ended,
    whether the call returned or raised; the routine itself, called on any
    list in any world, writes to no object and rebinds no name. *)
Theorem universe_never_mutated :
  (forall (tickers : loc) (period : string) (w : World),
      heap (snd (analyze tickers period w)) = heap w
      /\ globals (snd (analyze tickers period w)) = globals w
      /\ universe_view (snd (analyze tickers period w)) = universe_view w)
  /\ forall pre : list (string * PyVal),
      universe_view (loaded pre) = Some research_universe
      /\ universe_view (snd ((bind definitions (fun _ => flatten_universe)) (kernel pre)))
         = Some research_universe
      /\ universe_view (called_in pre) = Some research_universe
      /\ universe_view (snd (cell (kernel pre))) = Some research_universe.
Proof.
  split.
  - intros tickers period w.
    destruct (analyze_frame yf_history sns_heatmap fill_method tickers period w) as [Hh Hg].
    repeat split; try assumption. apply universe_view_frame; assumption.
  - intros pre.
    split; [vm_compute; reflexivity|]. split; [vm_compute; reflexivity|].
    split; [vm_compute; reflexivity|].
    destruct (cell_world pre) as [(e & _ & Hh & Hg)|(m & _ & Hh & Hg)].
    + rewrite (universe_view_frame _ _ Hh Hg). vm_compute. reflexivity.
    + unfold universe_view. rewrite Hh, Hg.
      destruct (called_in_world pre) as (Hheap & _ & Hu & _).
      cbn [binding String.eqb Ascii.eqb Bool.eqb]. rewrite Hu, Hheap. reflexivity.
Qed.

Lemma dropped_not_passed (t : string) : In t dropped -> ~ In t passed.
Proof.
  intros Hd Hp. vm_compute in Hd, Hp.
  repeat (destruct Hd as [<-|Hd];
          [repeat (destruct Hp as [Hp|Hp]; [discriminate Hp|]); exact Hp|]).
  exact Hd.
Qed.

Lemma spec_tickers_listed (fetch : string -> Outcome Series) (ts : list string) (t : string) :
  In t (spec_tickers fetch ts) -> In t ts.
Proof.
  unfold spec_tickers. rewrite first_occurrences_In, filter_In. tauto.
Qed.

Lemma sublist_names_length (fetch : string -> Outcome Series) (ts : list string) :
  (length (spec_tickers fetch ts) <= length ts)%nat.
Proof.
  apply sublist_length. unfold spec_tickers.
  etransitivity; [apply first_occurrences_sublist|apply filter_sublist].
Qed.

Lemma cell_requests (pre : list (string * PyVal)) :
  requests (snd (cell (kernel pre))) = map (fun t => (t, "3mo")) passed.
Proof.
  rewrite cell_unfold.
  pose proof (analyze_requests yf_history sns_heatmap fill_method 7%nat "3mo"
                (called_in pre) passed (called_in_list pre)) as Hr.
  destruct (called_in_world pre) as (_ & Hyf & _ & _ & Hq).
  unfold requested in Hr. rewrite Hyf, Hq in Hr.
  destruct (analyze 7%nat "3mo" (called_in pre)) as [[m|e] w']; cbn [fst snd requests] in *;
    rewrite Hr; reflexivity.
Qed.

(** Before the call returns no object of the store is a table. *)
Lemma no_table_yet (pre : list (string * PyVal)) (w : World) (m : DataFrame string) :
  heap w = heap (called_in pre) ->
  globals w = globals (called_in pre) ->
  correlations_of w <> Some m.
Proof.
  intros Hh Hg Hm. unfold correlations_of in Hm.
  destruct (called_in_world pre) as (Hheap & _ & _ & Hc & _).
  rewrite Hh, Hg, Hc, Hheap in Hm.
  destruct (binding "correlations" pre) as [[| | |r]|]; try discriminate Hm.
  do 8 (destruct r as [|r]; [discriminate Hm|]). discriminate Hm.
Qed.

Lemma table_bound (pre : list (string * PyVal)) (w : World) (m m' : DataFrame string) :
  heap w = heap (called_in pre) ++ [PyFrame m'] ->
  globals w = ("correlations", VRef 8%nat) :: globals (called_in pre) ->
  correlations_of w = Some m ->
  m' = m.
Proof.
  intros Hh Hg Hm. unfold correlations_of in Hm.
  destruct (called_in_world pre) as (Hheap & _).
  rewrite Hh, Hg, Hheap in Hm.
  change (binding "correlations" (("correlations", VRef 8%nat) :: globals (called_in pre)))
    with (Some (VRef 8%nat)) in Hm.
  cbn [lookup list_lookup app] in Hm. injection Hm as <-. reflexivity.
Qed.

(** A matrix in [correlations] after the cell is the one the call returned. *)
Lemma cell_correlations (pre : list (string * PyVal)) (m : DataFrame string) :
  correlations_of (snd (cell (kernel pre))) = Some m ->
  fst (analyze 7%nat "3mo" (called_in pre)) = Return m.
Proof.
  intros Hm.
  destruct (cell_world pre) as [(e & _ & Hh & Hg)|(m' & Hret & Hh & Hg)].
  - exfalso. exact (no_table_yet pre _ m Hh Hg Hm).
  - rewrite <- (table_bound pre _ m m' Hh Hg Hm). exact Hret.
Qed.

(** C9, as amended. The driver calls the routine on a new list that holds the
    first ten tickers of the flattened universe: the four indices, the five
    sectors and GLD. The provider is asked for these ten and for no other, so
    the ten tickers after them (SLV, USO, UNG, the four bonds and the three
    volatility tickers) are never fetched, and a matrix the cell leaves in
    [correlations] has at most ten rows and columns and none for a dropped
    ticker. *)
Theorem driver_analyses_first_ten (pre : list (string * PyVal)) :
  passed = ["SPY"; "QQQ"; "IWM"; "DIA"; "XLF"; "XLK"; "XLE"; "XLV"; "XLI"; "GLD"]
  /\ dropped = ["SLV"; "USO"; "UNG"; "TLT"; "IEF"; "SHY"; "HYG"; "VIX"; "UVXY"; "SVXY"]
  /\ heap (called_in pre) !! 7%nat = Some (PyList passed)
  /\ cell (kernel pre)
     = match analyze 7%nat "3mo" (called_in pre) with
       | (Return m, w') =>
           (Return tt,
            mkWorld (heap w' ++ [PyFrame m])
                    (("correlations", VRef (length (heap w'))) :: globals w')
                    (stdout w') (requests w') (canvas w'))
       | (Raise e, w') => (Raise e, w')
       end
  /\ requests (snd (cell (kernel pre))) = map (fun t => (t, "3mo")) passed
  /\ (forall t, In t dropped -> ~ In t (map fst (requests (snd (cell (kernel pre))))))
  /\ (forall m, correlations_of (snd (cell (kernel pre))) = Some m ->
        (length (index m) <= 10)%nat
        /\ (length (columns m) <= 10)%nat
        /\ forall t, In t dropped -> ~ In t (index m)).
Proof.
  split; [vm_compute; reflexivity|]. split; [vm_compute; reflexivity|].
  split; [apply called_in_list|].
  split; [apply cell_unfold|]. split; [apply cell_requests|]. split.
  - intros t Ht. rewrite cell_requests, map_map. cbn [fst]. rewrite map_id.
    apply dropped_not_passed, Ht.
  - intros m Hm. apply cell_correlations in Hm.
    destruct (analyze_returned _ _ _ _ _ _ _ Hm) as [ts [Hl ->]].
    rewrite called_in_list in Hl. injection Hl as <-.
    rewrite index_corr.
    assert (Hlen : length (columns (corr (return_table fill_method
                      (attempt yf_history (called_in pre) "3mo") passed)))
                   = length (column_names (return_table fill_method
                      (attempt yf_history (called_in pre) "3mo") passed))).
    { unfold corr, column_names. cbn [columns]. rewrite !length_map. reflexivity. }
    rewrite Hlen, return_table_names.
    pose proof (sublist_names_length (attempt yf_history (called_in pre) "3mo") passed) as Hle.
    assert (H10 : length passed = 10%nat) by (vm_compute; reflexivity).
    rewrite H10 in Hle.
    split; [exact Hle|]. split; [exact Hle|].
    intros t Ht Hin.
    exact (dropped_not_passed t Ht (spec_tickers_listed _ _ _ Hin)).
Qed.

End CellClaims.

(** C9, counterexample: the tickers the slice drops are not a tail of the
    bonds followed by the volatility tickers; they start with SLV, USO and
    UNG, which are commodities, and hold all four bonds. *)
Lemma dropped_not_later_bonds_and_volatility :
  ~ exists k : nat, dropped = skipn k (category "bonds") ++ category "volatility".
Proof.
  intros [k H].
  do 5 (destruct k as [|k]; [vm_compute in H; discriminate H|]).
  vm_compute in H. discriminate H.
Qed.

(** In a kernel that has seaborn the cell does leave a matrix in
    [correlations]. *)
Example cell_binds_correlations :
  exists m, correlations_of
              (snd (notebook_cell (Mock.history Mock.twin_book) Mock.draws Pad
                      (kernel seaborn))) = Some m.
Proof.
  rewrite cell_unfold.
  assert (Hret : fst (analyze_market_correlations (Mock.history Mock.twin_book) Mock.draws
                        Pad 7%nat "3mo" (called_in seaborn))
                 = Return (corr (return_table Pad
                     (attempt (Mock.history Mock.twin_book) (called_in seaborn) "3mo")
                     passed))).
  { apply analyze_returns; [apply called_in_list| | | |reflexivity];
      vm_compute; discriminate. }
  destruct (analyze_market_correlations _ _ _ 7%nat "3mo" (called_in seaborn))
    as [[m|e] w']; [|discriminate Hret].
  exists m. unfold correlations_of. cbn [snd globals heap].
  change (binding "correlations" (("correlations", VRef (length (heap w'))) :: globals w'))
    with (Some (VRef (length (heap w')))).
  cbn beta iota.
  assert (H : (heap w' ++ [PyFrame m]) !! length (heap w') = Some (PyFrame m))
    by (apply list_lookup_middle; reflexivity).
  unfold loc. rewrite H. reflexivity.
Qed.

(* ===================================================================== *)
(** ** Further properties of the routine *)
(* ===================================================================== *)

Section RoutineEffects.

Variable yf_history : string -> string -> Outcome Series.
Variable sns_heatmap : DataFrame string -> option PyExn.
Variable fill_method : FillMethod.

Abbreviation analyze := (analyze_market_correlations yf_history sns_heatmap fill_method).

Lemma diagnostics_failed (fetch : string -> Outcome Series) (ts : list string) :
  diagnostics fetch ts
  = map (fun t => ("Failed to get data for " ++ t)%string)
        (List.filter (fun t => negb (succeeded fetch t)) ts).
Proof.
  unfold diagnostics. induction ts as [|t ts IH]; [reflexivity|].
  cbn [flat_map List.filter]. unfold succeeded at 1.
  destruct (fetch t); cbn [negb map app]; rewrite IH; reflexivity.
Qed.

Lemma collect_all_failed (fetch : string -> Outcome Series) (ts : list string) :
  (forall t, In t ts -> exists e, fetch t = Raise e) ->
  forall data, collect fetch ts data = data.
Proof.
  induction ts as [|t ts IH]; intros Hall data; cbn; [reflexivity|].
  destruct (Hall t (or_introl eq_refl)) as [e ->].
  apply IH. intros u Hu. apply Hall. right. exact Hu.
Qed.

(** X1. With [yf] bound, the routine asks the provider once for every element
    of the list, in the order of the list and with the period of the call: a
    failed fetch is not tried again, and a ticker listed twice is asked for
    twice. This holds whether the routine then returns or raises. *)
Theorem one_request_per_listed_ticker
    (tickers : loc) (period : string) (w : World) (ts : list string) (v : PyVal) :
  heap w !! tickers = Some (PyList ts) ->
  binding "yf" (globals w) = Some v ->
  requests (snd (analyze tickers period w))
  = requests w ++ map (fun t => (t, period)) ts.
Proof.
  intros Hl Hyf. rewrite (analyze_requests _ _ _ _ _ _ ts Hl).
  unfold requested. rewrite Hyf. reflexivity.
Qed.

(** X2. The routine prints one line "Failed to get data for t" for every
    element of the list whose fetch raises, in the order of the list, and
    nothing else; when every fetch succeeds it prints nothing. This holds
    whether the routine then returns or raises. *)
Theorem one_line_per_failed_fetch
    (tickers : loc) (period : string) (w : World) (ts : list string) :
  heap w !! tickers = Some (PyList ts) ->
  stdout (snd (analyze tickers period w))
  = stdout w ++ map (fun t => ("Failed to get data for " ++ t)%string)
                    (List.filter
                       (fun t => negb (succeeded (attempt yf_history w period) t)) ts)
  /\ ((forall t, In t ts -> exists s, attempt yf_history w period t = Return s) ->
      stdout (snd (analyze tickers period w)) = stdout w).
Proof.
  intros Hl. rewrite (analyze_stdout _ _ _ _ _ _ ts Hl), diagnostics_failed.
  split; [reflexivity|]. intros Hall.
  assert (E : List.filter (fun t => negb (succeeded (attempt yf_history w period) t)) ts = []).
  { clear Hl. induction ts as [|t rest IH]; [reflexivity|]. cbn.
    destruct (Hall t (or_introl eq_refl)) as [s Hs]. unfold succeeded at 1. rewrite Hs. cbn.
    apply IH. intros u Hu. apply Hall. right. exact Hu. }
  rewrite E. cbn. apply app_nil_r.
Qed.

(** X3. The bare [except] also catches the [NameError] of an unbound [yf]:
    the routine then asks the provider for nothing and reports every listed
    ticker as failed, and it goes on past the loop: with [pd] and [plt] bound
    it opens the figure. *)
Theorem unbound_yf_is_swallowed
    (tickers : loc) (period : string) (w : World) (ts : list string) :
  heap w !! tickers = Some (PyList ts) ->
  binding "yf" (globals w) = None ->
  requests (snd (analyze tickers period w)) = requests w
  /\ stdout (snd (analyze tickers period w))
     = stdout w ++ map (fun t => ("Failed to get data for " ++ t)%string) ts
  /\ (binding "pd" (globals w) <> None ->
      binding "plt" (globals w) <> None ->
      exists rest, canvas (snd (analyze tickers period w)) = canvas w ++ Figure 10 8 :: rest).
Proof.
  intros Hl Hyf.
  assert (Hd : diagnostics (attempt yf_history w period) ts
               = map (fun t => ("Failed to get data for " ++ t)%string) ts).
  { unfold diagnostics, attempt. rewrite Hyf. clear.
    induction ts as [|t rest IH]; [reflexivity|].
    cbn [flat_map map app]. rewrite IH. reflexivity. }
  split; [|split].
  - rewrite (analyze_requests _ _ _ _ _ _ ts Hl). unfold requested.
    rewrite Hyf. apply app_nil_r.
  - rewrite (analyze_stdout _ _ _ _ _ _ ts Hl), Hd. reflexivity.
  - intros Hpd Hplt. rewrite analyze_unfold, Hl. cbn zeta.
    destruct (binding "pd" (globals w)); [|contradiction].
    destruct (binding "plt" (globals w)); [|contradiction].
    destruct (binding "sns" (globals w)); [|cbn; eauto].
    destruct (sns_heatmap _); cbn; eauto.
Qed.

(** X4. Only the fetch is guarded: an exception of the drawing call escapes
    the routine. By then every ticker has been asked for and the figure has
    been opened; the title is not set, the figure is not shown and nothing is
    returned. *)
Theorem drawing_exception_escapes
    (tickers : loc) (period : string) (w : World) (ts : list string) (e : PyExn) :
  heap w !! tickers = Some (PyList ts) ->
  binding "pd" (globals w) <> None ->
  binding "plt" (globals w) <> None ->
  binding "sns" (globals w) <> None ->
  sns_heatmap (corr (return_table fill_method (attempt yf_history w period) ts)) = Some e ->
  analyze tickers period w
  = (Raise e,
     mkWorld (heap w) (globals w)
             (stdout w ++ diagnostics (attempt yf_history w period) ts)
             (requests w ++ requested w period ts)
             (canvas w ++ [Figure 10 8])).
Proof.
  intros Hl Hpd Hplt Hsns Hdraw. rewrite analyze_unfold, Hl. cbn zeta.
  destruct (binding "pd" (globals w)); [|contradiction].
  destruct (binding "plt" (globals w)); [|contradiction].
  destruct (binding "sns" (globals w)); [|contradiction].
  rewrite Hdraw. reflexivity.
Qed.

(** X5. Called on a list, the routine returns exactly when the names [pd],
    [plt] and [sns] are bound and the drawing call accepts the matrix; what
    it returns is then the correlation table of the returns of the collected
    prices. No failure of a fetch keeps it from returning. *)
Theorem returns_exactly_when
    (tickers : loc) (period : string) (w : World) (ts : list string)
    (m : DataFrame string) :
  heap w !! tickers = Some (PyList ts) ->
  (fst (analyze tickers period w) = Return m
   <-> binding "pd" (globals w) <> None
       /\ binding "plt" (globals w) <> None
       /\ binding "sns" (globals w) <> None
       /\ m = corr (return_table fill_method (attempt yf_history w period) ts)
       /\ sns_heatmap m = None).
Proof.
  intros Hl. split.
  - rewrite analyze_unfold, Hl. cbn zeta.
    destruct (binding "pd" (globals w)); cbn; [|discriminate].
    destruct (binding "plt" (globals w)); cbn; [|discriminate].
    destruct (binding "sns" (globals w)); cbn; [|discriminate].
    destruct (sns_heatmap _) eqn:Hd; cbn; [discriminate|].
    intros [= <-]. repeat split; try discriminate. exact Hd.
  - intros (Hpd & Hplt & Hsns & -> & Hd).
    apply analyze_returns; assumption.
Qed.

(** X6. When the routine returns, it has made exactly four drawing calls, in
    this order: a figure of size 10 by 8, the heatmap, the title and the
    show; and the matrix drawn in the heatmap (annotated, colour map
    coolwarm, centred at 0) is the matrix returned. *)
Theorem drawn_matrix_is_returned
    (tickers : loc) (period : string) (w : World) (m : DataFrame string) :
  fst (analyze tickers period w) = Return m ->
  canvas (snd (analyze tickers period w))
  = canvas w ++ [Figure 10 8; Heatmap m true "coolwarm" 0;
                 Title "Asset Correlation Matrix"; Show].
Proof.
  rewrite analyze_unfold.
  destruct (heap w !! tickers) as [[ts|d|f]|]; cbn; try discriminate.
  destruct (binding "pd" (globals w)); cbn; [|discriminate].
  destruct (binding "plt" (globals w)); cbn; [|discriminate].
  destruct (binding "sns" (globals w)); cbn; [|discriminate].
  destruct (sns_heatmap _); cbn; [discriminate|].
  intros [= <-]. reflexivity.
Qed.

(** X7. When no fetch succeeds, and so on the empty list, the matrix the
    routine computes and hands to the heatmap is the empty one, without rows
    or columns. With [pd], [plt] and [sns] bound the outcome is then that of
    the drawing call on the empty matrix: the exception it raises escapes
    after the figure has been opened, and only if it accepts the empty matrix
    is the empty matrix returned. *)
Theorem no_fetched_ticker_draws_empty_matrix
    (tickers : loc) (period : string) (w : World) (ts : list string) :
  heap w !! tickers = Some (PyList ts) ->
  (forall t, In t ts -> exists e, attempt yf_history w period t = Raise e) ->
  binding "pd" (globals w) <> None ->
  binding "plt" (globals w) <> None ->
  binding "sns" (globals w) <> None ->
  corr (return_table fill_method (attempt yf_history w period) ts) = mkDataFrame [] []
  /\ analyze tickers period w
     = match sns_heatmap (mkDataFrame [] []) with
       | Some e =>
           (Raise e,
            mkWorld (heap w) (globals w)
                    (stdout w ++ diagnostics (attempt yf_history w period) ts)
                    (requests w ++ requested w period ts)
                    (canvas w ++ [Figure 10 8]))
       | None =>
           (Return (mkDataFrame [] []),
            mkWorld (heap w) (globals w)
                    (stdout w ++ diagnostics (attempt yf_history w period) ts)
                    (requests w ++ requested w period ts)
                    (canvas w ++ [Figure 10 8;
                                  Heatmap (mkDataFrame [] []) true "coolwarm" 0;
                                  Title "Asset Correlation Matrix"; Show]))
       end.
Proof.
  intros Hl Hall Hpd Hplt Hsns.
  assert (Hm : corr (return_table fill_method (attempt yf_history w period) ts)
               = mkDataFrame [] []).
  { unfold return_table, price_table. rewrite (collect_all_failed _ _ Hall). reflexivity. }
  split; [exact Hm|].
  rewrite analyze_unfold, Hl. cbn zeta. rewrite Hm.
  destruct (binding "pd" (globals w)); [|contradiction].
  destruct (binding "plt" (globals w)); [|contradiction].
  destruct (binding "sns" (globals w)); [|contradiction].
  destruct (sns_heatmap _); reflexivity.
Qed.

End RoutineEffects.

(* ===================================================================== *)
(** ** The flattening loop on any universe *)
(* ===================================================================== *)

Section Flattening.

(** What [universe_view] reads: the dict's references lead to list objects
    with the contents it reports. *)
Lemma universe_view_entries (h : list PyObj) (entries : list (string * loc)) :
  forall u,
    foldr (fun kv acc =>
             match h !! (snd kv), acc with
             | Some (PyList items), Some l => Some ((fst kv, items) :: l)
             | _, _ => None
             end)
          (Some []) entries = Some u ->
    Forall2 (fun kv items => h !! (snd kv) = Some (PyList items)) entries (map snd u).
Proof.
  induction entries as [|[k c] entries IH]; intros u; cbn.
  - intros [= <-]. constructor.
  - destruct (h !! c) as [[items|?|?]|] eqn:Hc; try discriminate.
    destruct (foldr _ _ entries) as [l|] eqn:Hf; [|discriminate].
    intros [= <-]. cbn. constructor; [exact Hc|]. apply IH. reflexivity.
Qed.

Lemma universe_view_grows (h : list PyObj) (x : PyObj) (entries : list (string * loc)) :
  forall lists,
    Forall2 (fun kv items => h !! (snd kv) = Some (PyList items)) entries lists ->
    foldr (fun kv acc =>
             match (h ++ [x]) !! (snd kv), acc with
             | Some (PyList items), Some l => Some ((fst kv, items) :: l)
             | _, _ => None
             end)
          (Some []) entries
    = foldr (fun kv acc =>
               match h !! (snd kv), acc with
               | Some (PyList items), Some l => Some ((fst kv, items) :: l)
               | _, _ => None
               end)
            (Some []) entries.
Proof.
  induction 1 as [|[k c] items entries lists Hc _ IH]; cbn; [reflexivity|].
  cbn in Hc. rewrite IH, (lookup_app_l_Some _ _ _ _ Hc), Hc. reflexivity.
Qed.

(** One pass of the loop appends the category's tickers to the object behind
    [all_tickers] and touches nothing else in the store. *)
Lemma flatten_step (h : list PyObj) (acc items : list string) (c : loc)
      (g : list (string * PyVal)) (o : list string) (r : list (string * string))
      (cv : list PlotCmd) :
  binding "all_tickers" g = Some (VRef (length h)) ->
  h !! c = Some (PyList items) ->
  bind (bind_global "category" (VRef c))
       (fun _ =>
          bind (lookup_global "all_tickers")
               (fun at_ =>
                  bind (as_ref at_)
                       (fun dst =>
                          bind (lookup_global "category")
                               (fun c' => bind (as_ref c') (fun src => list_extend dst src)))))
       (mkWorld (h ++ [PyList acc]) g o r cv)
  = (Return tt, mkWorld (h ++ [PyList (acc ++ items)]) (("category", VRef c) :: g) o r cv).
Proof.
  intros Hat Hc.
  unfold bind at 1. unfold bind_global. cbn [heap globals stdout requests canvas].
  unfold bind at 1. unfold lookup_global. cbn [globals].
  change (binding "all_tickers" (("category", VRef c) :: g)) with (binding "all_tickers" g).
  rewrite Hat. unfold bind at 1. cbn [as_ref ret].
  unfold bind at 1. cbn [globals].
  change (binding "category" (("category", VRef c) :: g)) with (Some (VRef c)).
  cbn iota. unfold bind at 1. cbn [as_ref ret].
  unfold list_extend, bind, read_list, store. cbn [heap globals stdout requests canvas].
  unfold loc in *.
  rewrite (list_lookup_middle h [] (PyList acc) (length h) eq_refl).
  cbn [heap]. rewrite (lookup_app_l_Some _ _ _ _ Hc).
  cbn [heap globals stdout requests canvas]. f_equal. f_equal.
  rewrite insert_app_r_alt by reflexivity.
  rewrite Nat.sub_diag. reflexivity.
Qed.

Lemma flatten_loop (h : list PyObj) (o : list string) (r : list (string * string))
      (cv : list PlotCmd) (cs : list loc) :
  forall (lists : list (list string)) (acc : list string) (g : list (string * PyVal)),
    Forall2 (fun c items => h !! c = Some (PyList items)) cs lists ->
    binding "all_tickers" g = Some (VRef (length h)) ->
    exists g',
      for_each cs
        (fun category (_ : unit) =>
           bind (bind_global "category" (VRef category))
                (fun _ =>
                   bind (lookup_global "all_tickers")
                        (fun at_ =>
                           bind (as_ref at_)
                                (fun dst =>
                                   bind (lookup_global "category")
                                        (fun c' =>
                                           bind (as_ref c')
                                                (fun src => list_extend dst src))))))
        tt (mkWorld (h ++ [PyList acc]) g o r cv)
      = (Return tt, mkWorld (h ++ [PyList (acc ++ concat lists)]) g' o r cv)
      /\ binding "all_tickers" g' = Some (VRef (length h))
      /\ binding "research_universe" g' = binding "research_universe" g.
Proof.
  induction cs as [|c cs IH]; intros lists acc g HF Hat.
  - inversion HF; subst. exists g. cbn. rewrite app_nil_r. repeat split. exact Hat.
  - inversion HF as [|? items ? lists' Hc HF']; subst.
    cbn [for_each]. unfold bind at 1. rewrite (flatten_step _ _ _ _ _ _ _ _ Hat Hc).
    destruct (IH lists' (acc ++ items) (("category", VRef c) :: g) HF' Hat)
      as (g' & Hrun & Hat' & Hru).
    exists g'. rewrite Hrun. cbn [concat]. rewrite app_assoc.
    repeat split; assumption.
Qed.

(** X9. The flattening loop, on any universe: when [research_universe] leads
    to a dict whose values are list objects, the statements
    [all_tickers = []] and the loop end without an exception, [all_tickers]
    is bound to a new list object that holds the tickers of all categories
    in the order of the dict, and the universe reads as before. *)
Theorem flatten_universe_concatenates
    (w : World) (u : list (string * list string)) :
  universe_view w = Some u ->
  fst (flatten_universe w) = Return tt
  /\ binding "all_tickers" (globals (snd (flatten_universe w)))
     = Some (VRef (length (heap w)))
  /\ heap (snd (flatten_universe w)) !! length (heap w)
     = Some (PyList (concat (map snd u)))
  /\ universe_view (snd (flatten_universe w)) = Some u.
Proof.
  unfold universe_view at 1.
  destruct (binding "research_universe" (globals w)) as [[| | |d]|] eqn:Hru; try discriminate.
  destruct (heap w !! d) as [[|entries|]|] eqn:Hd; try discriminate.
  intros Hu. pose proof (universe_view_entries _ _ _ Hu) as HF.
  assert (HF' : Forall2 (fun c items => heap w !! c = Some (PyList items))
                        (map snd entries) (map snd u)).
  { clear -HF. induction HF; cbn; constructor; assumption. }
  destruct w as [h g o r cv]. cbn [heap globals] in *.
  destruct (flatten_loop h o r cv (map snd entries) (map snd u) []
              (("all_tickers", VRef (length h)) :: g) HF' eq_refl)
    as (g' & Hrun & Hat & Hru').
  assert (Hflat : flatten_universe (mkWorld h g o r cv)
                  = (Return tt, mkWorld (h ++ [PyList (concat (map snd u))]) g' o r cv)).
  { unfold flatten_universe.
    unfold bind at 1. unfold alloc. cbn [heap globals stdout requests canvas].
    unfold bind at 1. unfold bind_global. cbn [heap globals stdout requests canvas].
    unfold bind at 1. unfold lookup_global. cbn [globals].
    change (binding "research_universe" (("all_tickers", VRef (length h)) :: g))
      with (binding "research_universe" g).
    rewrite Hru. unfold bind at 1. cbn [as_ref ret].
    unfold bind at 1. unfold read_dict. cbn [heap].
    rewrite (lookup_app_l_Some _ _ _ _ Hd).
    exact Hrun. }
  rewrite Hflat. cbn [fst snd heap globals].
  split; [reflexivity|]. split; [exact Hat|]. split.
  - unfold loc. apply list_lookup_middle. reflexivity.
  - unfold universe_view. cbn [heap globals].
    change (binding "research_universe" (("all_tickers", VRef (length h)) :: g))
      with (binding "research_universe" g) in Hru'.
    rewrite Hru', Hru, (lookup_app_l_Some _ _ _ _ Hd).
    rewrite (universe_view_grows _ _ _ _ HF). exact Hu.
Qed.

End Flattening.

(* ===================================================================== *)
(** ** The cell's outcome and output *)
(* ===================================================================== *)

Section CellEffects.

Variable yf_history : string -> string -> Outcome Series.
Variable sns_heatmap : DataFrame string -> option PyExn.
Variable fill_method : FillMethod.

Abbreviation analyze := (analyze_market_correlations yf_history sns_heatmap fill_method).
Abbreviation cell := (notebook_cell yf_history sns_heatmap fill_method).

Lemma called_in_names (pre : list (string * PyVal)) :
  binding "pd" (globals (called_in pre)) = Some (VModule "pandas")
  /\ binding "plt" (globals (called_in pre)) = Some (VModule "matplotlib.pyplot")
  /\ binding "sns" (globals (called_in pre)) = binding "sns" pre
  /\ stdout (called_in pre) = ["🔍 Analyzing market correlations..."].
Proof. repeat split; vm_compute; reflexivity. Qed.

Lemma binding_other (n k : string) (v : PyVal) (g : list (string * PyVal)) :
  String.eqb n k = false -> binding n ((k, v) :: g) = binding n g.
Proof. intros H. cbn. rewrite H. reflexivity. Qed.

(** With [pd] and [plt] bound, a call on a list returns exactly when [sns] is
    bound and the drawing call accepts the matrix. *)
Lemma returns_with_imports (tickers : loc) (period : string) (w : World)
      (ts : list string) (vp vq : PyVal) :
  heap w !! tickers = Some (PyList ts) ->
  binding "pd" (globals w) = Some vp ->
  binding "plt" (globals w) = Some vq ->
  ((exists m, fst (analyze tickers period w) = Return m)
   <-> binding "sns" (globals w) <> None
       /\ sns_heatmap (corr (return_table fill_method (attempt yf_history w period) ts))
          = None).
Proof.
  intros Hl Hpd Hplt. rewrite analyze_unfold, Hl. cbn zeta. rewrite Hpd, Hplt.
  destruct (binding "sns" (globals w)) as [v|].
  - destruct (sns_heatmap _) as [e|]; cbn [fst].
    + split; [intros [m H]; discriminate H|intros [_ H]; discriminate H].
    + split; [intros _; split; [discriminate|reflexivity]|intros _; eauto].
  - cbn [fst]. split; [intros [m H]; discriminate H|intros [H _]; contradiction].
Qed.

Lemma cell_ends_well (pre : list (string * PyVal)) :
  fst (cell (kernel pre)) = Return tt
  <-> exists m, fst (analyze 7%nat "3mo" (called_in pre)) = Return m.
Proof.
  rewrite cell_unfold.
  destruct (analyze 7%nat "3mo" (called_in pre)) as [[m|e] w']; cbn [fst].
  - split; [intros _; eauto|reflexivity].
  - split; [discriminate|intros [m H]; discriminate H].
Qed.

(** X10. The cell as a whole ends without an exception exactly when [sns] was
    bound in the kernel before the cell ran and the drawing call accepts the
    matrix of the first ten tickers; the cell itself never binds [sns]. In a
    kernel in which nothing was run before, it therefore always raises. *)
Theorem cell_completes_exactly_when (pre : list (string * PyVal)) :
  (fst (cell (kernel pre)) = Return tt
   <-> binding "sns" pre <> None
       /\ sns_heatmap (corr (return_table fill_method
                               (attempt yf_history (called_in pre) "3mo") passed)) = None)
  /\ binding "sns" (globals (snd (cell (kernel pre)))) = binding "sns" pre.
Proof.
  destruct (called_in_names pre) as (Hpd & Hplt & Hsns & _).
  split.
  - rewrite cell_ends_well,
      (returns_with_imports 7%nat "3mo" (called_in pre) passed _ _
         (called_in_list pre) Hpd Hplt), Hsns.
    reflexivity.
  - destruct (cell_world yf_history sns_heatmap fill_method pre)
      as [(e & _ & _ & Hg)|(m & _ & _ & Hg)]; rewrite Hg.
    + exact Hsns.
    + rewrite binding_other by reflexivity. exact Hsns.
Qed.

(** X11. What the cell prints, whether it ends well or not: first the
    line that announces the analysis, then one line "Failed to get data for
    t" for every one of the first ten tickers whose fetch raises, in their
    order, and nothing else. *)
Theorem cell_output (pre : list (string * PyVal)) :
  stdout (snd (cell (kernel pre)))
  = "🔍 Analyzing market correlations..."
    :: map (fun t => ("Failed to get data for " ++ t)%string)
           (List.filter
              (fun t => negb (succeeded (attempt yf_history (called_in pre) "3mo") t))
              passed).
Proof.
  destruct (called_in_names pre) as (_ & _ & _ & Hout).
  pose proof (analyze_stdout yf_history sns_heatmap fill_method 7%nat "3mo"
                (called_in pre) passed (called_in_list pre)) as Hs.
  rewrite Hout, diagnostics_failed in Hs.
  rewrite cell_unfold.
  destruct (analyze 7%nat "3mo" (called_in pre)) as [[m|e] w']; cbn [snd stdout] in *;
    exact Hs.
Qed.

End CellEffects.

(* ===================================================================== *)
(** ** Runs that show the further properties *)
(* ===================================================================== *)

(** X1, witness: AAA is listed twice and is asked for twice; CCC fails and is
    asked for once. *)
Lemma requests_witness :
  requests (snd (analyze_market_correlations (Mock.history Mock.twin_book) Mock.draws Pad
                   6%nat "3mo" (ready seaborn ["AAA"; "CCC"; "AAA"])))
  = requests (ready seaborn ["AAA"; "CCC"; "AAA"])
    ++ map (fun t => (t, "3mo")) ["AAA"; "CCC"; "AAA"].
Proof.
  apply (one_request_per_listed_ticker (Mock.history Mock.twin_book) Mock.draws Pad
           6%nat "3mo" (ready seaborn ["AAA"; "CCC"; "AAA"]) ["AAA"; "CCC"; "AAA"]
           (VModule "yfinance")).
  - apply mock_list.
  - vm_compute. reflexivity.
Defined.

(** X2, witness: only CCC fails. *)
Lemma output_witness :
  let w := ready seaborn ["AAA"; "CCC"; "BBB"] in
  let run := analyze_market_correlations (Mock.history Mock.twin_book) Mock.draws Pad
               6%nat "3mo" w in
  stdout (snd run)
  = stdout w ++ map (fun t => ("Failed to get data for " ++ t)%string)
                    (List.filter
                       (fun t => negb (succeeded
                                         (attempt (Mock.history Mock.twin_book) w "3mo") t))
                       ["AAA"; "CCC"; "BBB"])
  /\ ((forall t, In t ["AAA"; "CCC"; "BBB"] ->
         exists s, attempt (Mock.history Mock.twin_book) w "3mo" t = Return s) ->
      stdout (snd run) = stdout w).
Proof.
  apply (one_line_per_failed_fetch (Mock.history Mock.twin_book) Mock.draws Pad
           6%nat "3mo" (ready seaborn ["AAA"; "CCC"; "BBB"]) ["AAA"; "CCC"; "BBB"]).
  apply mock_list.
Defined.

Example output_example :
  stdout (snd (analyze_market_correlations (Mock.history Mock.twin_book) Mock.draws Pad
                 6%nat "3mo" (ready seaborn ["AAA"; "CCC"; "BBB"])))
  = ["Failed to get data for CCC"].
Proof.
  rewrite (analyze_stdout _ _ _ _ _ _ _ (mock_list ["AAA"; "CCC"; "BBB"])).
  vm_compute. reflexivity.
Qed.

(** X3, witness: a world in which [pd], [plt] and [sns] are bound and [yf] is
    not; the drawing call rejects the empty matrix. *)
Lemma unbound_yf_witness :
  let w := mkWorld [PyList ["AAA"; "BBB"]]
                   [("sns", VModule "seaborn"); ("plt", VModule "matplotlib.pyplot");
                    ("pd", VModule "pandas")] [] [] [] in
  let run := analyze_market_correlations (Mock.history Mock.twin_book) Mock.rejects_empty
               Pad 0%nat "3mo" w in
  requests (snd run) = requests w
  /\ stdout (snd run)
     = stdout w ++ map (fun t => ("Failed to get data for " ++ t)%string) ["AAA"; "BBB"]
  /\ (binding "pd" (globals w) <> None ->
      binding "plt" (globals w) <> None ->
      exists rest, canvas (snd run) = canvas w ++ Figure 10 8 :: rest).
Proof.
  apply (unbound_yf_is_swallowed (Mock.history Mock.twin_book) Mock.rejects_empty Pad
           0%nat "3mo").
  - reflexivity.
  - reflexivity.
Defined.

(** X4, witness: a drawing call that rejects every matrix. *)
Lemma drawing_exception_witness :
  let w := ready seaborn ["AAA"; "BBB"] in
  let rejects := fun _ : DataFrame string => Some (Exception "ValueError" "rejected") in
  analyze_market_correlations (Mock.history Mock.twin_book) rejects Pad 6%nat "3mo" w
  = (Raise (Exception "ValueError" "rejected"),
     mkWorld (heap w) (globals w)
             (stdout w ++ diagnostics (attempt (Mock.history Mock.twin_book) w "3mo")
                                      ["AAA"; "BBB"])
             (requests w ++ requested w "3mo" ["AAA"; "BBB"])
             (canvas w ++ [Figure 10 8])).
Proof.
  apply (drawing_exception_escapes (Mock.history Mock.twin_book)
           (fun _ => Some (Exception "ValueError" "rejected")) Pad 6%nat "3mo"
           (ready seaborn ["AAA"; "BBB"]) ["AAA"; "BBB"]).
  - apply mock_list.
  - vm_compute. discriminate.
  - vm_compute. discriminate.
  - vm_compute. discriminate.
  - reflexivity.
Defined.

(** X5, witness. *)
Lemma returns_witness :
  let w := ready seaborn ["AAA"; "CCC"; "BBB"] in
  let m := Mock.matrix_of Mock.twin_book ["AAA"; "CCC"; "BBB"] in
  fst (analyze_market_correlations (Mock.history Mock.twin_book) Mock.rejects_empty Pad
         6%nat "3mo" w) = Return m
  <-> binding "pd" (globals w) <> None
      /\ binding "plt" (globals w) <> None
      /\ binding "sns" (globals w) <> None
      /\ m = corr (return_table Pad (attempt (Mock.history Mock.twin_book) w "3mo")
                     ["AAA"; "CCC"; "BBB"])
      /\ Mock.rejects_empty m = None.
Proof.
  apply (returns_exactly_when (Mock.history Mock.twin_book) Mock.rejects_empty Pad
           6%nat "3mo" (ready seaborn ["AAA"; "CCC"; "BBB"]) ["AAA"; "CCC"; "BBB"]).
  apply mock_list.
Defined.

(** X6, witness. *)
Lemma drawn_matrix_witness :
  let w := ready seaborn ["AAA"; "BBB"] in
  canvas (snd (analyze_market_correlations (Mock.history Mock.twin_book) Mock.draws Pad
                 6%nat "3mo" w))
  = canvas w ++ [Figure 10 8;
                 Heatmap (Mock.matrix_of Mock.twin_book ["AAA"; "BBB"]) true "coolwarm" 0;
                 Title "Asset Correlation Matrix"; Show].
Proof.
  apply (drawn_matrix_is_returned (Mock.history Mock.twin_book) Mock.draws Pad
           6%nat "3mo" (ready seaborn ["AAA"; "BBB"])).
  apply mock_returns.
Defined.

(** X7, witness: the book lists neither CCC nor DDD, and the drawing call
    rejects the empty matrix. *)
Lemma no_matrix_witness :
  let w := ready seaborn ["CCC"; "DDD"] in
  let fetch := attempt (Mock.history Mock.twin_book) w "3mo" in
  corr (return_table Pad fetch ["CCC"; "DDD"]) = mkDataFrame [] []
  /\ analyze_market_correlations (Mock.history Mock.twin_book) Mock.rejects_empty Pad
       6%nat "3mo" w
     = match Mock.rejects_empty (mkDataFrame [] []) with
       | Some e =>
           (Raise e,
            mkWorld (heap w) (globals w)
                    (stdout w ++ diagnostics fetch ["CCC"; "DDD"])
                    (requests w ++ requested w "3mo" ["CCC"; "DDD"])
                    (canvas w ++ [Figure 10 8]))
       | None =>
           (Return (mkDataFrame [] []),
            mkWorld (heap w) (globals w)
                    (stdout w ++ diagnostics fetch ["CCC"; "DDD"])
                    (requests w ++ requested w "3mo" ["CCC"; "DDD"])
                    (canvas w ++ [Figure 10 8;
                                  Heatmap (mkDataFrame [] []) true "coolwarm" 0;
                                  Title "Asset Correlation Matrix"; Show]))
       end.
Proof.
  apply (no_fetched_ticker_draws_empty_matrix (Mock.history Mock.twin_book)
           Mock.rejects_empty Pad 6%nat "3mo" (ready seaborn ["CCC"; "DDD"])
           ["CCC"; "DDD"]).
  - apply mock_list.
  - intros t Ht. exists (Exception "HTTPError" "no data").
    destruct Ht as [<-|[<-|[]]]; reflexivity.
  - vm_compute. discriminate.
  - vm_compute. discriminate.
  - vm_compute. discriminate.
Defined.

Example no_matrix_example :
  fst (analyze_market_correlations (Mock.history Mock.twin_book) Mock.rejects_empty Pad
         6%nat "3mo" (ready seaborn ["CCC"; "DDD"]))
  = Raise (Exception "ValueError" "zero-size array").
Proof.
  rewrite (analyze_unfold _ _ _ _ _ (ready seaborn ["CCC"; "DDD"])).
  vm_compute. reflexivity.
Qed.

(** X9, witness: the universe of the notebook. *)
Lemma flatten_witness :
  fst (flatten_universe (loaded [])) = Return tt
  /\ binding "all_tickers" (globals (snd (flatten_universe (loaded []))))
     = Some (VRef (length (heap (loaded []))))
  /\ heap (snd (flatten_universe (loaded []))) !! length (heap (loaded []))
     = Some (PyList (concat (map snd research_universe)))
  /\ universe_view (snd (flatten_universe (loaded []))) = Some research_universe.
Proof.
  apply (flatten_universe_concatenates (loaded []) research_universe).
  vm_compute. reflexivity.
Defined.
